(** * The New Relic alert-condition resource: mapping, identifier codec, lifecycle

    A shallow embedding of [newrelic/resource_newrelic_alert_condition.go]:
    the translation of a configuration document into the remote alert
    condition ([buildAlertConditionStruct]), the translation back
    ([readAlertConditionStruct]), the duration validator chosen by the
    package-level flag [isNRQL], and the four lifecycle callbacks.

    Go values are embedded as follows.
    - [int] is [Z]; the code does no arithmetic on the integers it moves, so
      no wrap-around arises outside [strconv], where it is written out.
    - [string] is [string]; [float64] is the binary64 type [float].
    - A slice is a [list]; a struct is a [Record].
    - The package-level variable [isNRQL], standard output and [os.Exit] are
      the effects of a small monad [Proc].
    - A [*schema.ResourceData] is a record holding, for every schema key, the
      value [d.Get] returns for it; [d.Set] is a field update and the updated
      document is passed on explicitly. *)

From Stdlib Require Import ZArith List String Ascii Bool Lia.
From Stdlib Require Import Floats.PrimFloat.
Import ListNotations.

Local Open Scope string_scope.
Local Open Scope Z_scope.

(** ** Go's [error] values that reach this file *)

Inductive NumErrorKind : Type :=
| ErrSyntax
| ErrRange.

Inductive error : Type :=
| NumError (func num : string) (kind : NumErrorKind)
| ErrNotFound
| RemoteError (msg : string)
| MalformedIdentifierError (token : string).

(** ** Package [strconv]: the two conversions the resource calls *)

Module strconv.

Definition is_digit (c : ascii) : bool :=
  ((48 <=? N_of_ascii c) && (N_of_ascii c <=? 57))%N.

Definition digit_value (c : ascii) : Z := Z.of_N (N_of_ascii c) - 48.

Definition digit_char (d : Z) : ascii := ascii_of_N (Z.to_N (48 + d)).

Definition maxUint64 : Z := 2 ^ 64 - 1.

(** The digit loop of [ParseUint] in base 10, on the 64-bit accumulator [n]:
    a byte that is no digit is a syntax error; an accumulator that would
    leave 64 bits, or pass [maxVal], is a range error. *)
Fixpoint ParseUint_loop (maxVal : Z) (s : string) (n : Z) : NumErrorKind + Z :=
  match s with
  | EmptyString => inr n
  | String c s' =>
      if negb (is_digit c) then inl ErrSyntax
      else if maxUint64 / 10 + 1 <=? n then inl ErrRange
      else
        let n10 := n * 10 in
        let n1 := (n10 + digit_value c) mod 2 ^ 64 in
        if (n1 <? n10) || (maxVal <? n1) then inl ErrRange
        else ParseUint_loop maxVal s' n1
  end.

Definition ParseUint (s : string) (bitSize : Z) : NumErrorKind + Z :=
  match s with
  | EmptyString => inl ErrSyntax
  | _ => ParseUint_loop (2 ^ bitSize - 1) s 0
  end.

(** [ParseInt s 10 bitSize].  A range error of [ParseUint] comes with the
    value [maxVal], which is past either cutoff, so it stays a range error. *)
Definition ParseInt (s : string) (bitSize : Z) : error + Z :=
  let fail kind := inl (NumError "ParseInt" s kind) in
  match s with
  | EmptyString => fail ErrSyntax
  | String c s' =>
      let neg := Ascii.eqb c "-" in
      let body := if Ascii.eqb c "+" || neg then s' else s in
      match ParseUint body bitSize with
      | inl kind => fail kind
      | inr un =>
          let cutoff := 2 ^ (bitSize - 1) in
          if negb neg && (cutoff <=? un) then fail ErrRange
          else if neg && (cutoff <? un) then fail ErrRange
          else inr (if neg then - un else un)
      end
  end.

(** The loop of [formatBits] in base 10: the digits of [u] are written in
    front of [acc], least significant first.  [fuel] bounds the number of
    digits. *)
Fixpoint formatBits (fuel : nat) (u : Z) (acc : string) : string :=
  match fuel with
  | O => acc
  | S fuel' =>
      if u <? 10 then String (digit_char u) acc
      else formatBits fuel' (u / 10) (String (digit_char (u mod 10)) acc)
  end.

Definition formatFuel (u : Z) : nat := S (Z.to_nat (Z.log2 u)).

Definition Itoa (i : Z) : string :=
  if i <? 0 then String "-" (formatBits (formatFuel (- i)) (- i) "")
  else formatBits (formatFuel i) i "".

End strconv.

(** ** The process: the flag [isNRQL], standard output, [os.Exit], panics *)

Record World : Type := mkWorld {
  isNRQL : bool;          (* var isNRQL bool = false *)
  stdout : list string    (* what fmt.Printf has written, oldest first *)
}.

Definition initialWorld : World := {| isNRQL := false; stdout := [] |}.

(** How a call ends: it returns to its caller, or the whole process ends
    with an exit status, or the goroutine panics. *)
Inductive Run (A : Type) : Type :=
| Returns (a : A) (w : World)
| Exits (status : Z) (w : World)
| Panics (msg : string) (w : World).

Arguments Returns {A} a w.
Arguments Exits {A} status w.
Arguments Panics {A} msg w.

Definition Proc (A : Type) : Type := World -> Run A.

Definition ret {A : Type} (a : A) : Proc A := fun w => Returns a w.

Definition bind {A B : Type} (m : Proc A) (k : A -> Proc B) : Proc B :=
  fun w =>
    match m w with
    | Returns a w' => k a w'
    | Exits status w' => Exits status w'
    | Panics msg w' => Panics msg w'
    end.

Notation "x <- m ;; k" := (bind m (fun x => k))
  (at level 61, m at next level, right associativity).
Notation "m ;; k" := (bind m (fun _ => k))
  (at level 61, right associativity).

Definition get_isNRQL : Proc bool := fun w => Returns (isNRQL w) w.

Definition set_isNRQL (b : bool) : Proc unit :=
  fun w => Returns tt {| isNRQL := b; stdout := stdout w |}.

Definition fmt_Printf (msg : string) : Proc unit :=
  fun w => Returns tt {| isNRQL := isNRQL w; stdout := stdout w ++ [msg] |}.

Definition os_Exit {A : Type} (status : Z) : Proc A :=
  fun w => Exits status w.

Definition panic {A : Type} (msg : string) : Proc A :=
  fun w => Panics msg w.

(** [xs[i]] on a slice: a run-time panic when [i] is out of range. *)
Definition index {A : Type} (xs : list A) (i : nat) : Proc A :=
  match nth_error xs i with
  | Some x => ret x
  | None => panic "index out of range"
  end.

(** ** Package [api] of the client library: the remote data model

    The struct declarations live in the client library; the fields are those
    the resource reads and writes. *)

Module newrelic.

Module AlertConditionTerm.
Record t : Type := mk {
  Duration : Z;
  Operator : string;
  Priority : string;
  Threshold : float;
  TimeFunction : string
}.
End AlertConditionTerm.

Module AlertConditionNRQL.
Record t : Type := mk {
  Query : string;
  SinceValue : Z
}.
End AlertConditionNRQL.

Module AlertConditionUserDefined.
Record t : Type := mk {
  Metric : string;
  ValueFunction : string
}.
Definition zero : t := {| Metric := ""; ValueFunction := "" |}.
End AlertConditionUserDefined.

Module AlertCondition.
Record t : Type := mk {
  PolicyID : Z;
  ID : Z;
  Type_ : string;
  Name : string;
  Enabled : bool;
  Entities : list string;
  Metric : string;
  RunbookURL : string;
  Scope : string;
  Terms : list AlertConditionTerm.t;
  NRQL : list AlertConditionNRQL.t;
  UserDefined : AlertConditionUserDefined.t;
  ValueFunction : string
}.

(** The value of a composite literal that names none of the fields. *)
Definition zero : t :=
  {| PolicyID := 0; ID := 0; Type_ := ""; Name := ""; Enabled := false;
     Entities := []; Metric := ""; RunbookURL := ""; Scope := "";
     Terms := []; NRQL := []; UserDefined := AlertConditionUserDefined.zero;
     ValueFunction := "" |}.

(** Assignments [condition.F = v]. *)
Definition set_PolicyID (v : Z) (c : t) : t :=
  mk v (ID c) (Type_ c) (Name c) (Enabled c) (Entities c) (Metric c)
     (RunbookURL c) (Scope c) (Terms c) (NRQL c) (UserDefined c)
     (ValueFunction c).
Definition set_ID (v : Z) (c : t) : t :=
  mk (PolicyID c) v (Type_ c) (Name c) (Enabled c) (Entities c) (Metric c)
     (RunbookURL c) (Scope c) (Terms c) (NRQL c) (UserDefined c)
     (ValueFunction c).
Definition set_Type (v : string) (c : t) : t :=
  mk (PolicyID c) (ID c) v (Name c) (Enabled c) (Entities c) (Metric c)
     (RunbookURL c) (Scope c) (Terms c) (NRQL c) (UserDefined c)
     (ValueFunction c).
Definition set_Entities (v : list string) (c : t) : t :=
  mk (PolicyID c) (ID c) (Type_ c) (Name c) (Enabled c) v (Metric c)
     (RunbookURL c) (Scope c) (Terms c) (NRQL c) (UserDefined c)
     (ValueFunction c).
Definition set_Metric (v : string) (c : t) : t :=
  mk (PolicyID c) (ID c) (Type_ c) (Name c) (Enabled c) (Entities c) v
     (RunbookURL c) (Scope c) (Terms c) (NRQL c) (UserDefined c)
     (ValueFunction c).
Definition set_RunbookURL (v : string) (c : t) : t :=
  mk (PolicyID c) (ID c) (Type_ c) (Name c) (Enabled c) (Entities c)
     (Metric c) v (Scope c) (Terms c) (NRQL c) (UserDefined c)
     (ValueFunction c).
Definition set_UserDefined (v : AlertConditionUserDefined.t) (c : t) : t :=
  mk (PolicyID c) (ID c) (Type_ c) (Name c) (Enabled c) (Entities c)
     (Metric c) (RunbookURL c) (Scope c) (Terms c) (NRQL c) v
     (ValueFunction c).
End AlertCondition.

End newrelic.

(** ** Package [schema] of the configuration engine: the document

    The schema of the resource fixes the dynamic type of every key, so the
    document is a record with one typed field per key and the type
    assertions of the source cannot fail.  A field holds what [d.Get]
    returns: the value of the key, or the zero value of its type.  Every
    element of the lists [term] and [nrql] is a block with all its keys; a
    list with a nil element, on which the assertion at the head of either
    loop of [buildAlertConditionStruct] panics, is not among the documents
    described here. *)

Module schema.

Record TermBlock : Type := mkTerm {
  duration : Z;
  operator : string;
  priority : string;
  threshold : float;
  time_function : string
}.

Record NrqlBlock : Type := mkNrql {
  query : string;
  since_value : Z
}.

Record ResourceData : Type := mkResourceData {
  Id : string;
  policy_id : Z;
  name : string;
  type_ : string;
  entities : list Z;
  metric : string;
  runbook_url : string;
  condition_scope : string;
  term : list TermBlock;
  value_function : string;
  nrql : list NrqlBlock;
  user_defined_metric : string;
  user_defined_value_function : string
}.

(** The zero test behind [GetOk], per type of key. *)
Class HasZero (A : Type) : Type := is_zero : A -> bool.

#[export] Instance string_HasZero : HasZero string :=
  fun s => match s with EmptyString => true | String _ _ => false end.
#[export] Instance int_HasZero : HasZero Z := fun z => z =? 0.
#[export] Instance list_HasZero {A : Type} : HasZero (list A) :=
  fun l => match l with [] => true | _ :: _ => false end.

(** [d.GetOk(key)]: the value, and whether it is set to a value other than
    the zero value of its type. *)
Definition GetOk {A : Type} `{HasZero A} (v : A) : A * bool :=
  (v, negb (is_zero v)).

(** [d.SetId] and [d.Set(key, v)] with a value of the key's type. *)
Definition SetId (v : string) (d : ResourceData) : ResourceData :=
  mkResourceData v (policy_id d) (name d) (type_ d) (entities d) (metric d)
    (runbook_url d) (condition_scope d) (term d) (value_function d) (nrql d)
    (user_defined_metric d) (user_defined_value_function d).
Definition Set_policy_id (v : Z) (d : ResourceData) : ResourceData :=
  mkResourceData (Id d) v (name d) (type_ d) (entities d) (metric d)
    (runbook_url d) (condition_scope d) (term d) (value_function d) (nrql d)
    (user_defined_metric d) (user_defined_value_function d).
Definition Set_name (v : string) (d : ResourceData) : ResourceData :=
  mkResourceData (Id d) (policy_id d) v (type_ d) (entities d) (metric d)
    (runbook_url d) (condition_scope d) (term d) (value_function d) (nrql d)
    (user_defined_metric d) (user_defined_value_function d).
Definition Set_type (v : string) (d : ResourceData) : ResourceData :=
  mkResourceData (Id d) (policy_id d) (name d) v (entities d) (metric d)
    (runbook_url d) (condition_scope d) (term d) (value_function d) (nrql d)
    (user_defined_metric d) (user_defined_value_function d).
Definition Set_entities (v : list Z) (d : ResourceData) : ResourceData :=
  mkResourceData (Id d) (policy_id d) (name d) (type_ d) v (metric d)
    (runbook_url d) (condition_scope d) (term d) (value_function d) (nrql d)
    (user_defined_metric d) (user_defined_value_function d).
Definition Set_metric (v : string) (d : ResourceData) : ResourceData :=
  mkResourceData (Id d) (policy_id d) (name d) (type_ d) (entities d) v
    (runbook_url d) (condition_scope d) (term d) (value_function d) (nrql d)
    (user_defined_metric d) (user_defined_value_function d).
Definition Set_runbook_url (v : string) (d : ResourceData) : ResourceData :=
  mkResourceData (Id d) (policy_id d) (name d) (type_ d) (entities d)
    (metric d) v (condition_scope d) (term d) (value_function d) (nrql d)
    (user_defined_metric d) (user_defined_value_function d).
Definition Set_condition_scope (v : string) (d : ResourceData) : ResourceData :=
  mkResourceData (Id d) (policy_id d) (name d) (type_ d) (entities d)
    (metric d) (runbook_url d) v (term d) (value_function d) (nrql d)
    (user_defined_metric d) (user_defined_value_function d).
Definition Set_term (v : list TermBlock) (d : ResourceData) : ResourceData :=
  mkResourceData (Id d) (policy_id d) (name d) (type_ d) (entities d)
    (metric d) (runbook_url d) (condition_scope d) v (value_function d)
    (nrql d) (user_defined_metric d) (user_defined_value_function d).
Definition Set_value_function (v : string) (d : ResourceData) : ResourceData :=
  mkResourceData (Id d) (policy_id d) (name d) (type_ d) (entities d)
    (metric d) (runbook_url d) (condition_scope d) (term d) v (nrql d)
    (user_defined_metric d) (user_defined_value_function d).
Definition Set_nrql (v : list NrqlBlock) (d : ResourceData) : ResourceData :=
  mkResourceData (Id d) (policy_id d) (name d) (type_ d) (entities d)
    (metric d) (runbook_url d) (condition_scope d) (term d)
    (value_function d) v (user_defined_metric d)
    (user_defined_value_function d).
Definition Set_user_defined_metric (v : string) (d : ResourceData)
  : ResourceData :=
  mkResourceData (Id d) (policy_id d) (name d) (type_ d) (entities d)
    (metric d) (runbook_url d) (condition_scope d) (term d)
    (value_function d) (nrql d) v (user_defined_value_function d).
Definition Set_user_defined_value_function (v : string) (d : ResourceData)
  : ResourceData :=
  mkResourceData (Id d) (policy_id d) (name d) (type_ d) (entities d)
    (metric d) (runbook_url d) (condition_scope d) (term d)
    (value_function d) (nrql d) (user_defined_metric d) v.

(** A [SchemaValidateFunc] on an integer key: the value and the key go in,
    warnings and errors come out. *)
Inductive ValidationError : Type :=
| NotOneOf (key : string) (valid : list Z) (got : Z).

Definition SchemaValidateFunc : Type :=
  Z -> string -> list string * list ValidationError.

Definition accepts (f : SchemaValidateFunc) (key : string) (v : Z) : bool :=
  match snd (f v key) with [] => true | _ :: _ => false end.

End schema.

Import newrelic schema.

(** ** The resource *)

Section Resource.

(** The composite identifier is an opaque token to the specification, which
    only says that it splits into integer parts; the byte on which it
    splits is left open here. *)
Variable idSeparator : ascii.

(** The abstract state of the remote service. *)
Variable Remote : Type.

(** The part of [*newrelic.Client] the callbacks use.  Every call takes the
    remote service from one state to the next. *)
Record Client : Type := mkClient {
  CreateAlertCondition :
    AlertCondition.t -> Remote -> (error + AlertCondition.t) * Remote;
  GetAlertCondition :
    Z -> Z -> Remote -> (error + AlertCondition.t) * Remote;
  UpdateAlertCondition :
    AlertCondition.t -> Remote -> (error + AlertCondition.t) * Remote;
  DeleteAlertCondition :
    Z -> Z -> Remote -> option error * Remote
}.

(** *** The composite identifier codec *)

(** The parts of [s] between occurrences of [sep]; never empty. *)
Fixpoint split_on (sep : ascii) (s : string) : list string :=
  match s with
  | EmptyString => [EmptyString]
  | String c s' =>
      if Ascii.eqb c sep then EmptyString :: split_on sep s'
      else
        match split_on sep s' with
        | [] => [String c EmptyString]
        | part :: parts => String c part :: parts
        end
  end.

(** The value of a run of decimal digits read after the value [n]. *)
Fixpoint digits_value (s : string) (n : Z) : option Z :=
  match s with
  | EmptyString => Some n
  | String c s' =>
      if strconv.is_digit c then digits_value s' (n * 10 + strconv.digit_value c)
      else None
  end.

Definition numeral_value (s : string) : option Z :=
  match s with
  | EmptyString => None
  | _ => digits_value s 0
  end.

(** Modelled from the spec: what an "integer part" of a token is; the helper
    file that parses one is not among the sources.  An integer part is a
    decimal numeral with an optional sign, of any size. *)
Definition integer_part (s : string) : option Z :=
  match s with
  | EmptyString => None
  | String c s' =>
      if Ascii.eqb c "-" then option_map Z.opp (numeral_value s')
      else if Ascii.eqb c "+" then numeral_value s'
      else numeral_value s
  end.

Fixpoint integer_parts (parts : list string) : option (list Z) :=
  match parts with
  | [] => Some []
  | part :: rest =>
      match integer_part part, integer_parts rest with
      | Some v, Some vs => Some (v :: vs)
      | _, _ => None
      end
  end.

(** Modelled from the spec: [serializeIDs], the encoder of the composite
    identifier, whose source file is missing.  The token is the decimal
    renderings of the integers, joined by the separator. *)
Definition serializeIDs (ids : list Z) : string :=
  String.concat (String idSeparator EmptyString) (map strconv.Itoa ids).

(** Modelled from the spec: [parseIDs], the decoder of the composite
    identifier, whose source file is missing.  It fails unless the token
    splits into exactly [count] integer parts, and returns the integers in
    order. *)
Definition parseIDs (serializedID : string) (count : nat) : error + list Z :=
  let rawIDs := split_on idSeparator serializedID in
  if negb (List.length rawIDs =? count)%nat
  then inl (MalformedIdentifierError serializedID)
  else
    match integer_parts rawIDs with
    | Some ids => inr ids
    | None => inl (MalformedIdentifierError serializedID)
    end.

(** *** Validators *)

(** Modelled from the spec: [intInSlice], a helper of the provider whose
    source file is missing.  The validator accepts exactly the members of
    [valid] and describes the key and the constraint otherwise. *)
Definition intInSlice (valid : list Z) : SchemaValidateFunc :=
  fun v k =>
    if existsb (Z.eqb v) valid then ([], [])
    else ([], [NotOneOf k valid v]).

(** support different ValidateFunc for NRQL and other conditions *)
Definition intInSliceDuration : Proc SchemaValidateFunc :=
  b <- get_isNRQL ;;
  if b then ret (intInSlice [1; 2; 3; 4; 5; 10; 15; 30; 60; 120])
  else ret (intInSlice [5; 10; 15; 30; 60; 120]).

(** The validators that [resourceNewRelicAlertCondition] installs on the
    integer keys of the schema; the types, defaults and string validators of
    the other keys play no part below.  The call of [intInSliceDuration] is
    made here, once, while the schema is being built. *)
Record Resource : Type := mkResource {
  term_duration_ValidateFunc : SchemaValidateFunc;
  nrql_since_value_ValidateFunc : SchemaValidateFunc
}.

Definition resourceNewRelicAlertCondition : Proc Resource :=
  durationValidate <- intInSliceDuration ;;
  ret {| term_duration_ValidateFunc := durationValidate;
         nrql_since_value_ValidateFunc := intInSlice [1; 2; 3; 4; 5] |}.

(** *** The mapping from a document to the remote condition *)

Definition buildAlertConditionStruct (d : ResourceData)
  : Proc AlertCondition.t :=
  (if snd (GetOk (nrql d)) then set_isNRQL true else ret tt) ;;
  let termSet := term d in
  let terms :=
    map (fun termM =>
           {| AlertConditionTerm.Duration := duration termM;
              AlertConditionTerm.Operator := operator termM;
              AlertConditionTerm.Priority := priority termM;
              AlertConditionTerm.Threshold := threshold termM;
              AlertConditionTerm.TimeFunction := time_function termM |})
        termSet in
  let condition :=
    {| AlertCondition.Name := name d;
       AlertCondition.Enabled := true;
       AlertCondition.Terms := terms;
       AlertCondition.PolicyID := policy_id d;
       AlertCondition.Scope := condition_scope d;
       (* the fields the literal leaves out *)
       AlertCondition.ID := 0;
       AlertCondition.Type_ := "";
       AlertCondition.Entities := [];
       AlertCondition.Metric := "";
       AlertCondition.RunbookURL := "";
       AlertCondition.NRQL := [];
       AlertCondition.UserDefined := AlertConditionUserDefined.zero;
       AlertCondition.ValueFunction := "" |} in
  condition <-
    (let (attrN, ok) := GetOk (nrql d) in
     if ok then
       (if snd (GetOk (type_ d))
        then fmt_Printf "No type entry for NRQL query" ;; os_Exit 1
        else ret tt) ;;
       (if snd (GetOk (entities d))
        then fmt_Printf "No entities for NRQL query" ;; os_Exit 1
        else ret tt) ;;
       (if snd (GetOk (metric d))
        then fmt_Printf "No metric for NRQL query" ;; os_Exit 1
        else ret tt) ;;
       let nrqlSet := attrN in
       let prop :=
         map (fun propM =>
                {| AlertConditionNRQL.Query := query propM;
                   AlertConditionNRQL.SinceValue := since_value propM |})
             nrqlSet in
       (* [prop] is filled and goes out of scope here *)
       ret condition
     else
       condition <-
         (let (attrM, ok) := GetOk (metric d) in
          if ok then ret (AlertCondition.set_Metric attrM condition)
          else fmt_Printf "Must set matric value for metric-type conditions" ;;
               os_Exit 1) ;;
       condition <-
         (let (attrE, ok) := GetOk (entities d) in
          if ok then
            let entitySet := attrE in
            let entities := map strconv.Itoa entitySet in
            ret (AlertCondition.set_Entities entities condition)
          else fmt_Printf "Must set entities for metric-type conditions" ;;
               os_Exit 1) ;;
       (if snd (GetOk (type_ d))
        then ret (AlertCondition.set_Type (type_ d) condition)
        else fmt_Printf "Must set type for metric-type conditions" ;;
             os_Exit 1)) ;;
  let condition :=
    let (attr, ok) := GetOk (runbook_url d) in
    if ok then AlertCondition.set_RunbookURL attr condition else condition in
  let condition :=
    let (attrM, ok) := GetOk (user_defined_metric d) in
    if ok then
      let (attrVF, ok) := GetOk (user_defined_value_function d) in
      if ok then
        AlertCondition.set_UserDefined
          {| AlertConditionUserDefined.Metric := attrM;
             AlertConditionUserDefined.ValueFunction := attrVF |}
          condition
      else condition
    else condition in
  ret condition.

(** *** The mapping from the remote condition back to the document *)

(** The loop over [condition.Entities]: it stops at the first entity that
    [strconv.ParseInt(entity, 10, 32)] rejects. *)
Fixpoint parseEntities (es : list string) : error + list Z :=
  match es with
  | [] => inr []
  | entity :: rest =>
      match strconv.ParseInt entity 32 with
      | inl err => inl err
      | inr v =>
          match parseEntities rest with
          | inl err => inl err
          | inr vs => inr (v :: vs)
          end
      end
  end.

(** The result is the returned [error] ([None] for [nil]) and the document
    as the call leaves it.  Every [d.Set] is given a value of the type of
    its key and stores it. *)
Definition readAlertConditionStruct (condition : AlertCondition.t)
  (d : ResourceData) : Proc (option error * ResourceData) :=
  match parseIDs (Id d) 2 with
  | inl err => ret (Some err, d)
  | inr ids =>
      policyID <- index ids 0 ;;
      match parseEntities (AlertCondition.Entities condition) with
      | inl err => ret (Some err, d)
      | inr entities =>
          let d := Set_policy_id policyID d in
          let d := Set_name (AlertCondition.Name condition) d in
          let d := Set_type (AlertCondition.Type_ condition) d in
          let d := Set_metric (AlertCondition.Metric condition) d in
          let d := Set_runbook_url (AlertCondition.RunbookURL condition) d in
          let d := Set_condition_scope (AlertCondition.Scope condition) d in
          let d :=
            Set_user_defined_metric
              (AlertConditionUserDefined.Metric
                 (AlertCondition.UserDefined condition)) d in
          let d :=
            Set_user_defined_value_function
              (AlertConditionUserDefined.ValueFunction
                 (AlertCondition.UserDefined condition)) d in
          let d :=
            Set_value_function (AlertCondition.ValueFunction condition) d in
          let d := Set_entities entities d in
          let terms :=
            map (fun src =>
                   {| duration := AlertConditionTerm.Duration src;
                      operator := AlertConditionTerm.Operator src;
                      priority := AlertConditionTerm.Priority src;
                      threshold := AlertConditionTerm.Threshold src;
                      time_function := AlertConditionTerm.TimeFunction src |})
                (AlertCondition.Terms condition) in
          let d := Set_term terms d in
          let nrql :=
            map (fun src =>
                   {| query := AlertConditionNRQL.Query src;
                      since_value := AlertConditionNRQL.SinceValue src |})
                (AlertCondition.NRQL condition) in
          let d := Set_nrql nrql d in
          ret (None, d)
      end
  end.

(** *** The lifecycle callbacks

    A callback takes the client, the document and the state of the remote
    service, and returns its [error], the document and the remote service
    as it leaves them.  The lines written with [log.Printf] are left out.
    Each callback is taken from the point where its first statement, the
    assertion that [meta] holds a pointer to a [newrelic.Client], has
    produced the client; on a [meta] of another type that assertion panics
    before anything else happens, and no statement below speaks of that
    case. *)

Definition Outcome : Type := (option error * ResourceData * Remote)%type.

Definition resourceNewRelicAlertConditionCreate (client : Client)
  (d : ResourceData) (r : Remote) : Proc Outcome :=
  condition <- buildAlertConditionStruct d ;;
  let (created, r) := CreateAlertCondition client condition r in
  match created with
  | inl err => ret (Some err, d, r)
  | inr condition =>
      let d :=
        SetId (serializeIDs [AlertCondition.PolicyID condition;
                             AlertCondition.ID condition]) d in
      ret (None, d, r)
  end.

Definition resourceNewRelicAlertConditionRead (client : Client)
  (d : ResourceData) (r : Remote) : Proc Outcome :=
  match parseIDs (Id d) 2 with
  | inl err => ret (Some err, d, r)
  | inr ids =>
      policyID <- index ids 0 ;;
      id <- index ids 1 ;;
      let (found, r) := GetAlertCondition client policyID id r in
      match found with
      | inl err =>
          match err with
          | ErrNotFound => ret (None, SetId "" d, r)
          | _ => ret (Some err, d, r)
          end
      | inr condition =>
          res <- readAlertConditionStruct condition d ;;
          ret (fst res, snd res, r)
      end
  end.

Definition resourceNewRelicAlertConditionUpdate (client : Client)
  (d : ResourceData) (r : Remote) : Proc Outcome :=
  condition <- buildAlertConditionStruct d ;;
  match parseIDs (Id d) 2 with
  | inl err => ret (Some err, d, r)
  | inr ids =>
      policyID <- index ids 0 ;;
      id <- index ids 1 ;;
      let condition := AlertCondition.set_PolicyID policyID condition in
      let condition := AlertCondition.set_ID id condition in
      let (updated, r) := UpdateAlertCondition client condition r in
      match updated with
      | inl err => ret (Some err, d, r)
      | inr updatedCondition =>
          res <- readAlertConditionStruct updatedCondition d ;;
          ret (fst res, snd res, r)
      end
  end.

Definition resourceNewRelicAlertConditionDelete (client : Client)
  (d : ResourceData) (r : Remote) : Proc Outcome :=
  match parseIDs (Id d) 2 with
  | inl err => ret (Some err, d, r)
  | inr ids =>
      policyID <- index ids 0 ;;
      id <- index ids 1 ;;
      let (failure, r) := DeleteAlertCondition client policyID id r in
      match failure with
      | Some err => ret (Some err, d, r)
      | None => ret (None, SetId "" d, r)
      end
  end.

(** ** The vocabulary of the statements *)

Fixpoint string_forall (p : ascii -> bool) (s : string) : bool :=
  match s with
  | EmptyString => true
  | String c s' => p c && string_forall p s'
  end.

Definition fits_int32 (v : Z) : Prop := - 2 ^ 31 <= v < 2 ^ 31.

Definition is_not (sep : ascii) (c : ascii) : bool := negb (Ascii.eqb c sep).

(** A separator that cannot be taken for a part of a numeral. *)
Definition separator_ok (sep : ascii) : bool :=
  negb (strconv.is_digit sep) && is_not "-" sep && is_not "+" sep.

(** [token] is two integer parts, [a] then [b], with the separator between. *)
Definition splits_into_two (token : string) (a b : Z) : Prop :=
  exists s1 s2,
    token = s1 ++ String idSeparator s2 /\
    integer_part s1 = Some a /\ integer_part s2 = Some b.

(** What [GetOk] reports for the keys that decide the shape. *)
Definition has_nrql (d : ResourceData) : bool := snd (GetOk (nrql d)).
Definition has_type (d : ResourceData) : bool := snd (GetOk (type_ d)).
Definition has_entities (d : ResourceData) : bool := snd (GetOk (entities d)).
Definition has_metric (d : ResourceData) : bool := snd (GetOk (metric d)).

(** The line the call prints before it ends the process, if it does. *)
Definition shape_complaint (d : ResourceData) : option string :=
  if has_nrql d then
    if has_type d then Some "No type entry for NRQL query"
    else if has_entities d then Some "No entities for NRQL query"
    else if has_metric d then Some "No metric for NRQL query"
    else None
  else
    if negb (has_metric d)
    then Some "Must set matric value for metric-type conditions"
    else if negb (has_entities d)
    then Some "Must set entities for metric-type conditions"
    else if negb (has_type d)
    then Some "Must set type for metric-type conditions"
    else None.

(** The world a call of [buildAlertConditionStruct] leaves behind. *)
Definition world_after_build (d : ResourceData) (printed : option string)
  (w : World) : World :=
  {| isNRQL := if has_nrql d then true else isNRQL w;
     stdout := match printed with
               | Some msg => stdout w ++ [msg]
               | None => stdout w
               end |}.

Definition copy_of_term (t : TermBlock) (ct : AlertConditionTerm.t) : Prop :=
  AlertConditionTerm.Duration ct = duration t /\
  AlertConditionTerm.Operator ct = operator t /\
  AlertConditionTerm.Priority ct = priority t /\
  AlertConditionTerm.Threshold ct = threshold t /\
  AlertConditionTerm.TimeFunction ct = time_function t.

Definition both_user_defined (d : ResourceData) : bool :=
  snd (GetOk (user_defined_metric d)) &&
  snd (GetOk (user_defined_value_function d)).

(** The condition a returning call hands back, in closed form. *)
Definition condition_of_document (d : ResourceData) : AlertCondition.t :=
  {| AlertCondition.PolicyID := policy_id d;
     AlertCondition.ID := 0;
     AlertCondition.Type_ := type_ d;
     AlertCondition.Name := name d;
     AlertCondition.Enabled := true;
     AlertCondition.Entities := map strconv.Itoa (entities d);
     AlertCondition.Metric := metric d;
     AlertCondition.RunbookURL := runbook_url d;
     AlertCondition.Scope := condition_scope d;
     AlertCondition.Terms :=
       map (fun t => AlertConditionTerm.mk (duration t) (operator t)
                       (priority t) (threshold t) (time_function t))
           (term d);
     AlertCondition.NRQL := [];
     AlertCondition.UserDefined :=
       if both_user_defined d
       then AlertConditionUserDefined.mk (user_defined_metric d)
              (user_defined_value_function d)
       else AlertConditionUserDefined.zero;
     AlertCondition.ValueFunction := "" |}.

(** The two shapes of a document that [buildAlertConditionStruct] accepts. *)
Definition nrql_shaped (d : ResourceData) : Prop :=
  nrql d <> [] /\ type_ d = "" /\ entities d = [] /\ metric d = "".

Definition metric_shaped (d : ResourceData) : Prop :=
  nrql d = [] /\ type_ d <> "" /\ entities d <> [] /\ metric d <> "".

(** Both kinds of fields populated, or neither. *)
Definition shape_conflict (d : ResourceData) : Prop :=
  (nrql d <> [] /\ (type_ d <> "" \/ entities d <> [] \/ metric d <> "")) \/
  (nrql d = [] /\ type_ d = "" /\ entities d = [] /\ metric d = "").

(** The document a successful read leaves behind, in closed form. *)
Definition document_after_read (x : AlertCondition.t) (policyID : Z)
  (entityIDs : list Z) (d : ResourceData) : ResourceData :=
  {| Id := Id d;
     policy_id := policyID;
     name := AlertCondition.Name x;
     type_ := AlertCondition.Type_ x;
     entities := entityIDs;
     metric := AlertCondition.Metric x;
     runbook_url := AlertCondition.RunbookURL x;
     condition_scope := AlertCondition.Scope x;
     term :=
       map (fun src => mkTerm (AlertConditionTerm.Duration src)
                         (AlertConditionTerm.Operator src)
                         (AlertConditionTerm.Priority src)
                         (AlertConditionTerm.Threshold src)
                         (AlertConditionTerm.TimeFunction src))
           (AlertCondition.Terms x);
     value_function := AlertCondition.ValueFunction x;
     nrql :=
       map (fun src => mkNrql (AlertConditionNRQL.Query src)
                         (AlertConditionNRQL.SinceValue src))
           (AlertCondition.NRQL x);
     user_defined_metric :=
       AlertConditionUserDefined.Metric (AlertCondition.UserDefined x);
     user_defined_value_function :=
       AlertConditionUserDefined.ValueFunction (AlertCondition.UserDefined x)
  |}.

(** An entity that [strconv.ParseInt(entity, 10, 32)] rejects. *)
Definition bad_entity (entity : string) : Prop :=
  exists e, strconv.ParseInt entity 32 = inl e.

(** Modelled from the spec: the check of the configuration engine on the
    durations of a document; the engine is not among the sources.  It
    applies the validator installed for the duration of a term to every
    term of the document. *)
Definition term_durations_valid (res : Resource) (d : ResourceData) : bool :=
  forallb (fun t => accepts (term_duration_ValidateFunc res) "duration"
                      (duration t))
          (term d).

(** The documents of the acceptance test. *)
Definition metric_doc : ResourceData :=
  {| Id := "";
     policy_id := 40;
     name := "tf-test-foo";
     type_ := "apm_app_metric";
     entities := [1234];
     metric := "apdex";
     runbook_url := "https://foo.example.com";
     condition_scope := "application";
     term := [mkTerm 5 "below" "critical" 0.75%float "all"];
     value_function := "single_value";
     nrql := [];
     user_defined_metric := "";
     user_defined_value_function := "" |}.

Definition nrql_block : NrqlBlock :=
  mkNrql "SELECT count(*) from SyntheticCheck where monitorName = 'foo' and result != 'SUCCESS'"
         3.

(** The NRQL document of the test without its [type] line, which
    [buildAlertConditionStruct] does not accept next to an nrql block. *)
Definition nrql_doc : ResourceData :=
  {| Id := "";
     policy_id := 40;
     name := "tf-test-nrql-foo";
     type_ := "";
     entities := [];
     metric := "";
     runbook_url := "https://foo.example.com";
     condition_scope := "";
     term := [mkTerm 5 "below" "critical" 0.75%float "all"];
     value_function := "single_value";
     nrql := [nrql_block];
     user_defined_metric := "";
     user_defined_value_function := "" |}.

(** The NRQL document of the test as it is written, [type] line included. *)
Definition nrql_doc_with_type : ResourceData := Set_type "nrql_query" nrql_doc.

(** The same documents with a single term of one minute. *)
Definition nrql_doc_one_minute : ResourceData :=
  Set_term [mkTerm 1 "below" "critical" 0.75%float "all"] nrql_doc.

Definition metric_doc_one_minute : ResourceData :=
  Set_term [mkTerm 1 "below" "critical" 0.75%float "all"] metric_doc.

(** An entity as [buildAlertConditionStruct] writes one: the decimal
    rendering of a 32-bit integer. *)
Definition canonical_entity (entity : string) : Prop :=
  exists v, fits_int32 v /\ entity = strconv.Itoa v.

Definition condition_nrql_shaped (x : AlertCondition.t) : Prop :=
  AlertCondition.NRQL x <> [] /\ AlertCondition.Type_ x = "" /\
  AlertCondition.Entities x = [] /\ AlertCondition.Metric x = "".

Definition condition_metric_shaped (x : AlertCondition.t) : Prop :=
  AlertCondition.NRQL x = [] /\ AlertCondition.Type_ x <> "" /\
  AlertCondition.Entities x <> [] /\ AlertCondition.Metric x <> "".

Definition pair_whole_or_empty (u : AlertConditionUserDefined.t) : Prop :=
  (AlertConditionUserDefined.Metric u = "" /\
   AlertConditionUserDefined.ValueFunction u = "") \/
  (AlertConditionUserDefined.Metric u <> "" /\
   AlertConditionUserDefined.ValueFunction u <> "").

(** The fields that come back from a read followed by a build. *)
Definition same_fields_by_design (x y : AlertCondition.t) : Prop :=
  AlertCondition.Name y = AlertCondition.Name x /\
  AlertCondition.Type_ y = AlertCondition.Type_ x /\
  AlertCondition.Metric y = AlertCondition.Metric x /\
  AlertCondition.Entities y = AlertCondition.Entities x /\
  AlertCondition.RunbookURL y = AlertCondition.RunbookURL x /\
  AlertCondition.Scope y = AlertCondition.Scope x /\
  AlertCondition.Terms y = AlertCondition.Terms x /\
  AlertCondition.UserDefined y = AlertCondition.UserDefined x.

(** All the fields the mapping defines. *)
Definition same_mapped_fields (x y : AlertCondition.t) : Prop :=
  same_fields_by_design x y /\
  AlertCondition.NRQL y = AlertCondition.NRQL x /\
  AlertCondition.ValueFunction y = AlertCondition.ValueFunction x.

(** The round trip as the specification words it: the read succeeds, the
    build of the document read returns, and every mapped field is back. *)
Definition lossless_round_trip (x : AlertCondition.t) (d : ResourceData)
  (w : World) : Prop :=
  exists d' y w',
    readAlertConditionStruct x d w = Returns (None, d') w /\
    buildAlertConditionStruct d' w = Returns y w' /\
    same_mapped_fields x y.

(** A Metric-shaped condition of the remote service whose user-defined pair
    has a metric and no value function. *)
Definition half_pair_condition : AlertCondition.t :=
  {| AlertCondition.PolicyID := 40;
     AlertCondition.ID := 1234;
     AlertCondition.Type_ := "apm_app_metric";
     AlertCondition.Name := "tf-test-foo";
     AlertCondition.Enabled := true;
     AlertCondition.Entities := ["1234"];
     AlertCondition.Metric := "user_defined";
     AlertCondition.RunbookURL := "https://foo.example.com";
     AlertCondition.Scope := "application";
     AlertCondition.Terms :=
       [AlertConditionTerm.mk 5 "below" "critical" 0.75%float "all"];
     AlertCondition.NRQL := [];
     AlertCondition.UserDefined :=
       AlertConditionUserDefined.mk "Custom/Latency" "";
     AlertCondition.ValueFunction := "" |}.

(** ** Properties of the conversions *)

Example Itoa_samples :
  strconv.Itoa 0 = "0" /\ strconv.Itoa 12345 = "12345" /\
  strconv.Itoa (-70) = "-70".
Proof. repeat split. Qed.

Example ParseInt_samples :
  strconv.ParseInt "+0042" 32 = inr 42 /\
  strconv.ParseInt "-2147483648" 32 = inr (-2147483648) /\
  strconv.ParseInt "2147483648" 32
  = inl (NumError "ParseInt" "2147483648" ErrRange) /\
  strconv.ParseInt "12a" 32 = inl (NumError "ParseInt" "12a" ErrSyntax) /\
  strconv.ParseInt "" 32 = inl (NumError "ParseInt" "" ErrSyntax).
Proof. repeat split. Qed.

Example split_on_samples :
  split_on ":" "40:1234" = ["40"; "1234"] /\
  split_on ":" "40" = ["40"] /\
  split_on ":" ":7:" = [""; "7"; ""].
Proof. repeat split. Qed.

Lemma digit_char_is_digit (d : Z) :
  0 <= d < 10 -> strconv.is_digit (strconv.digit_char d) = true.
Proof.
  intros Hd.
  assert (Hcases : d = 0 \/ d = 1 \/ d = 2 \/ d = 3 \/ d = 4 \/ d = 5 \/
                   d = 6 \/ d = 7 \/ d = 8 \/ d = 9) by lia.
  repeat (destruct Hcases as [-> | Hcases]; [reflexivity | ]).
  subst d; reflexivity.
Qed.

Lemma digit_value_digit_char (d : Z) :
  0 <= d < 10 -> strconv.digit_value (strconv.digit_char d) = d.
Proof.
  intros Hd.
  assert (Hcases : d = 0 \/ d = 1 \/ d = 2 \/ d = 3 \/ d = 4 \/ d = 5 \/
                   d = 6 \/ d = 7 \/ d = 8 \/ d = 9) by lia.
  repeat (destruct Hcases as [-> | Hcases]; [reflexivity | ]).
  subst d; reflexivity.
Qed.

Lemma digit_value_range (c : ascii) :
  strconv.is_digit c = true -> 0 <= strconv.digit_value c < 10.
Proof.
  unfold strconv.is_digit, strconv.digit_value.
  rewrite andb_true_iff, !N.leb_le. lia.
Qed.

(** The digits [formatBits] writes read back as the number written. *)
Lemma formatBits_value (fuel : nat) :
  forall u acc, 0 <= u < 2 ^ Z.of_nat (S fuel) ->
    exists k, 0 < k /\ u < 10 ^ k /\
      forall n, digits_value (strconv.formatBits (S fuel) u acc) n
                = digits_value acc (n * 10 ^ k + u).
Proof.
  induction fuel as [| fuel IH]; intros u acc Hu.
  - exists 1. change (2 ^ Z.of_nat 1) with 2 in Hu.
    assert (Hlt : (u <? 10) = true) by (apply Z.ltb_lt; lia).
    simpl strconv.formatBits. rewrite Hlt.
    repeat split; try lia.
    intros n. simpl digits_value.
    rewrite digit_char_is_digit, digit_value_digit_char by lia.
    f_equal; lia.
  - destruct (Z.ltb_spec u 10) as [Hlt | Hge].
    + exists 1. cbn [strconv.formatBits].
      assert (Hlt' : (u <? 10) = true) by (apply Z.ltb_lt; lia).
      rewrite Hlt'. repeat split; try lia.
      intros n. simpl digits_value.
      rewrite digit_char_is_digit, digit_value_digit_char by lia.
      f_equal; lia.
    + assert (Hdiv : 0 <= u / 10 < 2 ^ Z.of_nat (S fuel)).
      { split; [apply Z.div_pos; lia | ].
        apply Z.div_lt_upper_bound; [lia | ].
        replace (Z.of_nat (S (S fuel))) with (Z.of_nat (S fuel) + 1) in Hu
          by lia.
        rewrite Z.pow_add_r in Hu by lia. lia. }
      destruct (IH (u / 10)
                   (String (strconv.digit_char (u mod 10)) acc) Hdiv)
        as (k & Hk & Hbound & Hval).
      exists (k + 1).
      assert (Hmod : 0 <= u mod 10 < 10) by (apply Z.mod_pos_bound; lia).
      assert (Hu10 : u = 10 * (u / 10) + u mod 10)
        by (apply Z.div_mod; lia).
      rewrite Z.pow_add_r by lia. change (10 ^ 1) with 10.
      repeat split; try lia.
      intros n.
      change (strconv.formatBits (S (S fuel)) u acc)
        with (if u <? 10 then String (strconv.digit_char u) acc
              else strconv.formatBits (S fuel) (u / 10)
                     (String (strconv.digit_char (u mod 10)) acc)).
      assert (Hnlt : (u <? 10) = false) by (apply Z.ltb_ge; lia).
      rewrite Hnlt, Hval. simpl digits_value.
      rewrite digit_char_is_digit, digit_value_digit_char by lia.
      f_equal. lia.
Qed.

Lemma formatFuel_enough (u : Z) :
  0 <= u -> 0 <= u < 2 ^ Z.of_nat (strconv.formatFuel u).
Proof.
  intros Hu. split; [exact Hu | ].
  unfold strconv.formatFuel.
  rewrite Nat2Z.inj_succ, Z2Nat.id by apply Z.log2_nonneg.
  destruct (Z.eq_dec u 0) as [-> | Hnz]; [reflexivity | ].
  apply Z.log2_spec; lia.
Qed.

Lemma digits_value_Itoa_nonneg (u : Z) :
  0 <= u -> digits_value (strconv.formatBits (strconv.formatFuel u) u "") 0
            = Some u.
Proof.
  intros Hu.
  destruct (formatBits_value (Z.to_nat (Z.log2 u)) u "" (formatFuel_enough u Hu))
    as (k & _ & _ & Hval).
  unfold strconv.formatFuel. rewrite Hval. simpl. f_equal; lia.
Qed.

Lemma digits_value_all_digits (s : string) :
  forall n v, digits_value s n = Some v ->
    string_forall strconv.is_digit s = true.
Proof.
  induction s as [| c s IH]; intros n v H; simpl in *; [reflexivity | ].
  destruct (strconv.is_digit c); [ | discriminate].
  simpl. eapply IH; eassumption.
Qed.

Lemma formatBits_nonempty (fuel : nat) (u : Z) (acc : string) :
  strconv.formatBits (S fuel) u acc <> "".
Proof.
  revert u acc. induction fuel as [| fuel IH]; intros u acc.
  - simpl. destruct (u <? 10); discriminate.
  - change (strconv.formatBits (S (S fuel)) u acc)
      with (if u <? 10 then String (strconv.digit_char u) acc
            else strconv.formatBits (S fuel) (u / 10)
                   (String (strconv.digit_char (u mod 10)) acc)).
    destruct (u <? 10); [discriminate | apply IH].
Qed.

Lemma digits_value_mono (s : string) :
  forall n v, 0 <= n -> digits_value s n = Some v -> n <= v.
Proof.
  induction s as [| c s IH]; intros n v Hn H; simpl in H.
  - injection H as <-. lia.
  - destruct (strconv.is_digit c) eqn:Hc; [ | discriminate].
    pose proof (digit_value_range c Hc) as Hd.
    apply IH in H; lia.
Qed.

(** On a run of digits whose value fits, the loop of [ParseUint] finds the
    value and meets none of its range checks. *)
Lemma ParseUint_loop_digits (maxVal : Z) (s : string) :
  forall n v, 0 <= n -> maxVal <= strconv.maxUint64 ->
    digits_value s n = Some v -> v <= maxVal ->
    strconv.ParseUint_loop maxVal s n = inr v.
Proof.
  induction s as [| c s IH]; intros n v Hn Hmax H Hv; simpl in H.
  - injection H as <-. reflexivity.
  - destruct (strconv.is_digit c) eqn:Hc; [ | discriminate].
    pose proof (digit_value_range c Hc) as Hd.
    assert (Hstep : n * 10 + strconv.digit_value c <= v)
      by (eapply digits_value_mono; [lia | eassumption]).
    cbn [strconv.ParseUint_loop]. rewrite Hc. cbn [negb].
    unfold strconv.maxUint64 in *.
    change (2 ^ 64 - 1) with 18446744073709551615 in *.
    change (18446744073709551615 / 10 + 1) with 1844674407370955162.
    change (2 ^ 64) with 18446744073709551616.
    assert (Hcut : (1844674407370955162 <=? n) = false)
      by (apply Z.leb_gt; lia).
    rewrite Hcut.
    rewrite Z.mod_small by lia.
    assert (Hwrap : (n * 10 + strconv.digit_value c <? n * 10) = false)
      by (apply Z.ltb_ge; lia).
    assert (Hfit : (maxVal <? n * 10 + strconv.digit_value c) = false)
      by (apply Z.ltb_ge; lia).
    rewrite Hwrap, Hfit. cbn [orb].
    apply IH; (lia || assumption).
Qed.

Lemma digit_not_sign (c : ascii) :
  strconv.is_digit c = true ->
  Ascii.eqb c "-" = false /\ Ascii.eqb c "+" = false.
Proof.
  intros Hc. split.
  - destruct (Ascii.eqb_spec c "-") as [-> | _]; [discriminate | reflexivity].
  - destruct (Ascii.eqb_spec c "+") as [-> | _]; [discriminate | reflexivity].
Qed.

(** [ParseInt(Itoa(v), 10, 32)] is [v] for every 32-bit [v]. *)
Lemma ParseInt_Itoa (v : Z) :
  fits_int32 v -> strconv.ParseInt (strconv.Itoa v) 32 = inr v.
Proof.
  unfold fits_int32. change (2 ^ 31) with 2147483648. intros Hv.
  unfold strconv.Itoa.
  destruct (Z.ltb_spec v 0) as [Hneg | Hpos].
  - pose proof (digits_value_Itoa_nonneg (- v) ltac:(lia)) as Hval.
    pose proof (formatBits_nonempty (Z.to_nat (Z.log2 (- v))) (- v) "") as Hne.
    fold (strconv.formatFuel (- v)) in Hne.
    unfold strconv.ParseInt. cbn [Ascii.eqb Bool.eqb orb].
    unfold strconv.ParseUint.
    destruct (strconv.formatBits (strconv.formatFuel (- v)) (- v) "")
      as [| c body] eqn:Hbody; [contradiction | ].
    rewrite (ParseUint_loop_digits _ _ 0 (- v)); try assumption;
      try (unfold strconv.maxUint64; change (2 ^ 32 - 1) with 4294967295);
      try lia.
    change (2 ^ (32 - 1)) with 2147483648. cbn [negb andb].
    assert (Hcut : (2147483648 <? - v) = false) by (apply Z.ltb_ge; lia).
    rewrite Hcut. f_equal. lia.
  - pose proof (digits_value_Itoa_nonneg v Hpos) as Hval.
    pose proof (formatBits_nonempty (Z.to_nat (Z.log2 v)) v "") as Hne.
    fold (strconv.formatFuel v) in Hne.
    destruct (strconv.formatBits (strconv.formatFuel v) v "")
      as [| c body] eqn:Hbody; [contradiction | ].
    assert (Hc : strconv.is_digit c = true).
    { simpl in Hval. destruct (strconv.is_digit c); [reflexivity | discriminate]. }
    destruct (digit_not_sign c Hc) as [Hminus Hplus].
    unfold strconv.ParseInt. rewrite Hminus, Hplus. cbn [orb].
    unfold strconv.ParseUint.
    rewrite (ParseUint_loop_digits _ _ 0 v); try assumption;
      try (unfold strconv.maxUint64; change (2 ^ 32 - 1) with 4294967295);
      try lia.
    change (2 ^ (32 - 1)) with 2147483648. cbn [negb andb].
    assert (Hcut : (2147483648 <=? v) = false) by (apply Z.leb_gt; lia).
    rewrite Hcut. reflexivity.
Qed.

(** ** Properties of the identifier codec *)

Lemma split_on_nonempty (sep : ascii) (s : string) : split_on sep s <> [].
Proof.
  destruct s as [| c s]; simpl; [discriminate | ].
  destruct (Ascii.eqb c sep); [discriminate | ].
  destruct (split_on sep s); discriminate.
Qed.

Lemma split_on_free (sep : ascii) (s : string) :
  string_forall (is_not sep) s = true -> split_on sep s = [s].
Proof.
  induction s as [| c s IH]; simpl; [reflexivity | ].
  rewrite andb_true_iff. unfold is_not at 1. intros [Hc Hs].
  apply negb_true_iff in Hc. rewrite Hc, IH by assumption. reflexivity.
Qed.

Lemma split_on_app (sep : ascii) (s1 s2 : string) :
  string_forall (is_not sep) s1 = true ->
  split_on sep (s1 ++ String sep s2) = s1 :: split_on sep s2.
Proof.
  induction s1 as [| c s1 IH]; simpl.
  - intros _. rewrite Ascii.eqb_refl. reflexivity.
  - rewrite andb_true_iff. unfold is_not at 1. intros [Hc Hs].
    apply negb_true_iff in Hc. rewrite Hc, IH by assumption. reflexivity.
Qed.

Lemma concat_cons (sep x y : string) (l : list string) :
  String.concat sep (x :: y :: l) = x ++ sep ++ String.concat sep (y :: l).
Proof. reflexivity. Qed.

(** Joining the parts with the separator gives the string back. *)
Lemma concat_split_on (sep : ascii) (s : string) :
  String.concat (String sep "") (split_on sep s) = s.
Proof.
  induction s as [| c s IH]; [reflexivity | ].
  simpl split_on.
  pose proof (split_on_nonempty sep s) as Hne.
  destruct (split_on sep s) as [| part parts] eqn:Hsplit; [contradiction | ].
  destruct (Ascii.eqb_spec c sep) as [-> | Hc].
  - rewrite concat_cons, IH. reflexivity.
  - destruct parts as [| part' parts].
    + simpl in *. f_equal. exact IH.
    + rewrite concat_cons in *. simpl. f_equal. exact IH.
Qed.

Lemma digits_free (sep : ascii) (s : string) :
  strconv.is_digit sep = false ->
  string_forall strconv.is_digit s = true ->
  string_forall (is_not sep) s = true.
Proof.
  intros Hsep. induction s as [| c s IH]; simpl; [reflexivity | ].
  rewrite !andb_true_iff. intros [Hc Hs]. split; [ | auto].
  unfold is_not. destruct (Ascii.eqb_spec c sep) as [-> | _];
    [congruence | reflexivity].
Qed.

Lemma numeral_value_all_digits (s : string) (v : Z) :
  numeral_value s = Some v -> string_forall strconv.is_digit s = true.
Proof.
  destruct s as [| c s]; [discriminate | ].
  unfold numeral_value. apply digits_value_all_digits.
Qed.

Lemma integer_part_free (sep : ascii) (s : string) (v : Z) :
  separator_ok sep = true -> integer_part s = Some v ->
  string_forall (is_not sep) s = true.
Proof.
  unfold separator_ok. rewrite !andb_true_iff, negb_true_iff.
  intros [[Hdigit Hminus] Hplus] H.
  destruct s as [| c s]; [discriminate | ].
  unfold integer_part in H.
  assert (Htail : forall w, numeral_value s = Some w ->
                            string_forall (is_not sep) s = true).
  { intros w Hw. apply digits_free; [assumption | ].
    eapply numeral_value_all_digits; eassumption. }
  destruct (Ascii.eqb_spec c "-") as [-> | _].
  - destruct (numeral_value s) as [w | ] eqn:Hw; [ | discriminate].
    simpl. unfold is_not in Hminus |- *. rewrite Ascii.eqb_sym in Hminus.
    rewrite Hminus. eauto.
  - destruct (Ascii.eqb_spec c "+") as [-> | _].
    + simpl. unfold is_not in Hplus |- *. rewrite Ascii.eqb_sym in Hplus.
      rewrite Hplus. eauto.
    + apply digits_free; [assumption | ].
      eapply numeral_value_all_digits; eassumption.
Qed.

Lemma integer_part_Itoa_nonneg (v : Z) :
  0 <= v -> integer_part (strconv.Itoa v) = Some v.
Proof.
  intros Hv. unfold strconv.Itoa.
  assert (Hlt : (v <? 0) = false) by (apply Z.ltb_ge; lia). rewrite Hlt.
  pose proof (digits_value_Itoa_nonneg v Hv) as Hval.
  pose proof (formatBits_nonempty (Z.to_nat (Z.log2 v)) v "") as Hne.
  fold (strconv.formatFuel v) in Hne.
  destruct (strconv.formatBits (strconv.formatFuel v) v "")
    as [| c body] eqn:Hbody; [contradiction | ].
  assert (Hc : strconv.is_digit c = true).
  { simpl in Hval. destruct (strconv.is_digit c); [reflexivity | discriminate]. }
  destruct (digit_not_sign c Hc) as [Hminus Hplus].
  unfold integer_part. rewrite Hminus, Hplus. exact Hval.
Qed.

Lemma Itoa_nonneg_free (sep : ascii) (v : Z) :
  strconv.is_digit sep = false -> 0 <= v ->
  string_forall (is_not sep) (strconv.Itoa v) = true.
Proof.
  intros Hsep Hv. apply digits_free; [assumption | ].
  pose proof (integer_part_Itoa_nonneg v Hv) as H.
  unfold strconv.Itoa in *.
  assert (Hlt : (v <? 0) = false) by (apply Z.ltb_ge; lia).
  rewrite Hlt in *.
  eapply digits_value_all_digits. apply digits_value_Itoa_nonneg. exact Hv.
Qed.

(** A successful decoding has as many integers as were asked for. *)
Lemma parseIDs_length (s : string) (count : nat) (ids : list Z) :
  parseIDs s count = inr ids -> List.length ids = count.
Proof.
  unfold parseIDs.
  destruct (Nat.eqb_spec (List.length (split_on idSeparator s)) count)
    as [Hlen | _]; [ | discriminate].
  cbn [negb]. revert count Hlen ids.
  generalize (split_on idSeparator s) as parts.
  induction parts as [| part parts IH]; intros count Hlen ids H; simpl in *.
  - injection H as <-. exact Hlen.
  - destruct (integer_part part) as [v | ]; [ | discriminate].
    destruct (integer_parts parts) as [vs | ] eqn:Hvs; [ | discriminate].
    injection H as <-. simpl. subst count. f_equal.
    apply (IH (List.length parts) eq_refl vs). reflexivity.
Qed.

Lemma parseIDs_two (s : string) (ids : list Z) :
  parseIDs s 2 = inr ids -> exists p c, ids = [p; c].
Proof.
  intros H. apply parseIDs_length in H.
  destruct ids as [| p [| c [| x ids]]]; try discriminate. eauto.
Qed.

(** C4.  Decoding the token that encodes the pair of non-negative integers
    [(p, c)], with two parts expected, gives back [p] then [c]; this holds
    for whatever separator the token is built with, as long as the
    separator is not a decimal digit. *)
Theorem parseIDs_serializeIDs (p c : Z) :
  strconv.is_digit idSeparator = false -> 0 <= p -> 0 <= c ->
  parseIDs (serializeIDs [p; c]) 2 = inr [p; c].
Proof.
  intros Hsep Hp Hc.
  unfold parseIDs, serializeIDs. cbn [map]. rewrite concat_cons.
  cbn [String.concat]. change (String idSeparator "" ++ strconv.Itoa c)
    with (String idSeparator (strconv.Itoa c)).
  rewrite split_on_app by (apply Itoa_nonneg_free; assumption).
  rewrite split_on_free by (apply Itoa_nonneg_free; assumption).
  cbn [List.length Nat.eqb negb integer_parts].
  rewrite !integer_part_Itoa_nonneg by assumption. reflexivity.
Qed.

(** C5.  With two parts expected, decoding succeeds on every token that is
    two integer parts with the separator between them, returning the two
    integers in order, and on no other token; on every other token (fewer
    parts, more parts, or a part that is no integer) it fails with the
    malformed-identifier error. *)
Theorem parseIDs_two_integer_parts (token : string) :
  separator_ok idSeparator = true ->
  (forall a b,
     splits_into_two token a b <-> parseIDs token 2 = inr [a; b]) /\
  ((forall a b, ~ splits_into_two token a b) ->
   parseIDs token 2 = inl (MalformedIdentifierError token)).
Proof.
  intros Hsep.
  assert (Hfwd : forall a b, splits_into_two token a b ->
                             parseIDs token 2 = inr [a; b]).
  { intros a b (s1 & s2 & -> & Ha & Hb). unfold parseIDs.
    rewrite split_on_app by (eapply integer_part_free; eassumption).
    rewrite split_on_free by (eapply integer_part_free; eassumption).
    cbn [List.length Nat.eqb negb integer_parts]. rewrite Ha, Hb.
    reflexivity. }
  assert (Hback : forall r, parseIDs token 2 = r ->
            match r with
            | inr ids => exists a b, ids = [a; b] /\ splits_into_two token a b
            | inl e => e = MalformedIdentifierError token
            end).
  { intros r <-. unfold parseIDs.
    pose proof (concat_split_on idSeparator token) as Hjoin.
    destruct (split_on idSeparator token) as [| s1 [| s2 [| s3 parts]]];
      try reflexivity.
    cbn [List.length Nat.eqb negb integer_parts].
    destruct (integer_part s1) as [a | ] eqn:Ha; [ | reflexivity].
    destruct (integer_part s2) as [b | ] eqn:Hb; [ | reflexivity].
    exists a, b. split; [reflexivity | ].
    exists s1, s2. repeat split; try assumption.
    rewrite <- Hjoin. reflexivity. }
  split.
  - intros a b. split; [apply Hfwd | ].
    intros H. specialize (Hback _ H). cbn in Hback.
    destruct Hback as (a' & b' & Heq & Hsplit).
    injection Heq as -> ->. exact Hsplit.
  - intros Hnone. specialize (Hback _ eq_refl).
    destruct (parseIDs token 2) as [e | ids].
    + congruence.
    + destruct Hback as (a & b & _ & Hsplit). destruct (Hnone a b Hsplit).
Qed.

(** ** Properties of [buildAlertConditionStruct] *)

(** Every call of [buildAlertConditionStruct] ends in one of two ways: it
    prints its complaint about the shape and exits with status 1, or it
    returns the condition above. *)
Lemma build_run (d : ResourceData) (w : World) :
  buildAlertConditionStruct d w =
  match shape_complaint d with
  | Some msg => Exits 1 (world_after_build d (Some msg) w)
  | None => Returns (condition_of_document d) (world_after_build d None w)
  end.
Proof.
  unfold shape_complaint, world_after_build, condition_of_document,
    both_user_defined, has_nrql, has_type, has_entities, has_metric.
  unfold buildAlertConditionStruct, bind, ret, GetOk, set_isNRQL, fmt_Printf,
    os_Exit, is_zero.
  destruct d as [id pid nm ty es me rb sc tm vf nq udm udvf].
  destruct w as [flag out].
  cbn [nrql type_ entities metric runbook_url user_defined_metric
       user_defined_value_function name policy_id condition_scope term].
  destruct nq, ty, es, me;
    cbn [list_HasZero string_HasZero negb snd fst isNRQL stdout];
    try reflexivity;
    destruct rb, udm, udvf; reflexivity.
Qed.

Lemma build_returns (d : ResourceData) (w : World) :
  shape_complaint d = None ->
  buildAlertConditionStruct d w
  = Returns (condition_of_document d) (world_after_build d None w).
Proof. intros H. rewrite build_run, H. reflexivity. Qed.

Lemma build_exits (d : ResourceData) (w : World) (msg : string) :
  shape_complaint d = Some msg ->
  buildAlertConditionStruct d w = Exits 1 (world_after_build d (Some msg) w).
Proof. intros H. rewrite build_run, H. reflexivity. Qed.

Lemma build_returned_condition (d : ResourceData) (w w' : World)
  (c : AlertCondition.t) :
  buildAlertConditionStruct d w = Returns c w' ->
  shape_complaint d = None /\ c = condition_of_document d /\
  w' = world_after_build d None w.
Proof.
  rewrite build_run. destruct (shape_complaint d); [discriminate | ].
  intros H. injection H as <- <-. auto.
Qed.

Lemma shape_complaint_nrql (d : ResourceData) :
  nrql d <> [] -> type_ d = "" -> entities d = [] -> metric d = "" ->
  shape_complaint d = None.
Proof.
  unfold shape_complaint, has_nrql, has_type, has_entities, has_metric, GetOk,
    is_zero.
  intros Hn -> -> ->. destruct (nrql d); [contradiction | reflexivity].
Qed.

Lemma shape_complaint_metric (d : ResourceData) :
  nrql d = [] -> type_ d <> "" -> entities d <> [] -> metric d <> "" ->
  shape_complaint d = None.
Proof.
  unfold shape_complaint, has_nrql, has_type, has_entities, has_metric, GetOk,
    is_zero.
  intros -> Ht He Hm.
  destruct (type_ d), (entities d), (metric d); try contradiction.
  reflexivity.
Qed.

Lemma shape_conflict_complaint (d : ResourceData) :
  shape_conflict d -> exists msg, shape_complaint d = Some msg.
Proof.
  unfold shape_conflict, shape_complaint, has_nrql, has_type, has_entities,
    has_metric, GetOk, is_zero.
  intros [[Hn Hany] | (-> & -> & -> & ->)]; [ | cbn; eauto].
  destruct (nrql d); [contradiction | ].
  destruct (type_ d), (entities d), (metric d); cbn; eauto.
  destruct Hany as [H | [H | H]]; contradiction.
Qed.

Lemma Forall2_copy_of_term (ts : list TermBlock) :
  Forall2 copy_of_term ts
    (map (fun t => AlertConditionTerm.mk (duration t) (operator t)
                     (priority t) (threshold t) (time_function t)) ts).
Proof.
  induction ts as [| t ts IH]; simpl; constructor; [ | exact IH].
  repeat split.
Qed.

(** C1.  On a document with a non-empty nrql block and none of type,
    entities and metric, the call returns, and the condition it returns has
    an empty NRQL list: the entries built from the block are not stored in
    the condition. *)
Theorem build_drops_nrql_block (d : ResourceData) (w : World) :
  nrql_shaped d ->
  exists c w',
    buildAlertConditionStruct d w = Returns c w' /\
    AlertCondition.NRQL c = [].
Proof.
  intros (Hn & Ht & He & Hm).
  exists (condition_of_document d), (world_after_build d None w).
  split; [ | reflexivity].
  apply build_returns, shape_complaint_nrql; assumption.
Qed.

(** C3, as the code has it.  On a document in which an nrql block and any
    of type, entities, metric are populated, and on a document in which
    none of the four is, the call does not come back to its caller: it
    prints one line on standard output and ends the process with status 1.
    [Create] and [Update], which begin with this call, end the same way, so
    the client is never called. *)
Theorem build_shape_conflict_exits (d : ResourceData) (w : World) :
  shape_conflict d ->
  exists msg,
    buildAlertConditionStruct d w
    = Exits 1 (world_after_build d (Some msg) w) /\
    (forall client r,
       resourceNewRelicAlertConditionCreate client d r w
       = Exits 1 (world_after_build d (Some msg) w)) /\
    (forall client r,
       resourceNewRelicAlertConditionUpdate client d r w
       = Exits 1 (world_after_build d (Some msg) w)).
Proof.
  intros Hconflict.
  destruct (shape_conflict_complaint d Hconflict) as [msg Hmsg].
  pose proof (build_exits d w msg Hmsg) as Hexit.
  exists msg. split; [exact Hexit | ].
  split; intros client r.
  - unfold resourceNewRelicAlertConditionCreate, bind. rewrite Hexit.
    reflexivity.
  - unfold resourceNewRelicAlertConditionUpdate, bind. rewrite Hexit.
    reflexivity.
Qed.

(** C8.  Whenever the call returns a condition, the condition has the name,
    the policy id and the condition scope of the document, is enabled, and
    its terms are the terms of the document, one for one and in order, each
    with the same duration, operator, priority, threshold and time
    function. *)
Theorem build_copies_common_fields (d : ResourceData) (w w' : World)
  (c : AlertCondition.t) :
  buildAlertConditionStruct d w = Returns c w' ->
  AlertCondition.Name c = name d /\
  AlertCondition.PolicyID c = policy_id d /\
  AlertCondition.Scope c = condition_scope d /\
  AlertCondition.Enabled c = true /\
  Forall2 copy_of_term (term d) (AlertCondition.Terms c).
Proof.
  intros H. apply build_returned_condition in H.
  destruct H as (_ & -> & _).
  repeat split. apply Forall2_copy_of_term.
Qed.

(** C9.  On a document of either accepted shape the call returns, whatever
    the two user-defined keys hold; the condition carries the pair of
    user-defined metric and value function when both keys are set, and the
    zero pair when either is not. *)
Theorem build_user_defined_pair (d : ResourceData) (w : World) :
  nrql_shaped d \/ metric_shaped d ->
  exists c w',
    buildAlertConditionStruct d w = Returns c w' /\
    (user_defined_metric d <> "" /\ user_defined_value_function d <> "" ->
     AlertCondition.UserDefined c
     = AlertConditionUserDefined.mk (user_defined_metric d)
         (user_defined_value_function d)) /\
    (user_defined_metric d = "" \/ user_defined_value_function d = "" ->
     AlertCondition.UserDefined c = AlertConditionUserDefined.zero).
Proof.
  intros Hshape.
  exists (condition_of_document d), (world_after_build d None w).
  split.
  - apply build_returns.
    destruct Hshape as [(Hn & Ht & He & Hm) | (Hn & Ht & He & Hm)];
      [apply shape_complaint_nrql | apply shape_complaint_metric]; assumption.
  - cbn [condition_of_document AlertCondition.UserDefined].
    unfold both_user_defined, GetOk, is_zero.
    destruct (user_defined_metric d), (user_defined_value_function d);
      cbn; split; intros H; try reflexivity;
      solve [ destruct H as [H1 H2]; congruence
            | destruct H as [H | H]; discriminate ].
Qed.

(** ** Properties of [readAlertConditionStruct] and of the callbacks *)

Lemma read_succeeds (x : AlertCondition.t) (d : ResourceData) (w : World)
  (p c : Z) (vs : list Z) :
  parseIDs (Id d) 2 = inr [p; c] ->
  parseEntities (AlertCondition.Entities x) = inr vs ->
  readAlertConditionStruct x d w
  = Returns (None, document_after_read x p vs d) w.
Proof.
  intros Hids Hes. unfold readAlertConditionStruct. rewrite Hids.
  unfold bind, index, ret. cbn [nth_error]. rewrite Hes.
  destruct d; reflexivity.
Qed.

Lemma parseEntities_bad (es : list string) :
  Exists bad_entity es -> exists e, parseEntities es = inl e.
Proof.
  induction 1 as [entity rest [e He] | entity rest _ [e IH]]; simpl.
  - rewrite He. eauto.
  - destruct (strconv.ParseInt entity 32) as [e' | v]; [eauto | ].
    rewrite IH. eauto.
Qed.

(** C10.  When the identifier of the document does not decode into two
    integers, or some entity of the condition is not an integer that
    [ParseInt] accepts, the call returns an error and the document is the
    one it was given: no key has been set. *)
Theorem read_atomic_on_error (x : AlertCondition.t) (d : ResourceData)
  (w : World) :
  (exists e, parseIDs (Id d) 2 = inl e) \/
  Exists bad_entity (AlertCondition.Entities x) ->
  exists err, readAlertConditionStruct x d w = Returns (Some err, d) w.
Proof.
  intros Hbad. unfold readAlertConditionStruct.
  destruct (parseIDs (Id d) 2) as [e | ids] eqn:Hids.
  - exists e. reflexivity.
  - destruct Hbad as [[e He] | Hentity]; [discriminate | ].
    destruct (parseIDs_two _ _ Hids) as (p & c & ->).
    destruct (parseEntities_bad _ Hentity) as [e He].
    exists e. unfold bind, index, ret. cbn [nth_error]. rewrite He.
    reflexivity.
Qed.

(** C7.  A failed remote call ends the callback with that very error and
    the document as it was; the one exception is [Read] on the not-found
    error, which clears the id of the document and reports success.
    [Update] and [Delete] hand the not-found error back like any other. *)
Theorem remote_errors_in_callbacks (client : Client) (d : ResourceData)
  (r r' : Remote) (w : World) :
  (forall cond w1 e,
     buildAlertConditionStruct d w = Returns cond w1 ->
     CreateAlertCondition client cond r = (inl e, r') ->
     resourceNewRelicAlertConditionCreate client d r w
     = Returns (Some e, d, r') w1) /\
  (forall p c,
     parseIDs (Id d) 2 = inr [p; c] ->
     (GetAlertCondition client p c r = (inl ErrNotFound, r') ->
      resourceNewRelicAlertConditionRead client d r w
      = Returns (None, SetId "" d, r') w) /\
     (forall e, e <> ErrNotFound ->
        GetAlertCondition client p c r = (inl e, r') ->
        resourceNewRelicAlertConditionRead client d r w
        = Returns (Some e, d, r') w) /\
     (forall cond w1 e,
        buildAlertConditionStruct d w = Returns cond w1 ->
        UpdateAlertCondition client
          (AlertCondition.set_ID c (AlertCondition.set_PolicyID p cond)) r
        = (inl e, r') ->
        resourceNewRelicAlertConditionUpdate client d r w
        = Returns (Some e, d, r') w1) /\
     (forall e,
        DeleteAlertCondition client p c r = (Some e, r') ->
        resourceNewRelicAlertConditionDelete client d r w
        = Returns (Some e, d, r') w)).
Proof.
  split.
  - intros cond w1 e Hbuild Hcall.
    unfold resourceNewRelicAlertConditionCreate, bind.
    rewrite Hbuild, Hcall. reflexivity.
  - intros p c Hids. repeat split.
    + intros Hcall. unfold resourceNewRelicAlertConditionRead.
      rewrite Hids. unfold bind, index, ret. cbn [nth_error].
      rewrite Hcall. reflexivity.
    + intros e Hne Hcall. unfold resourceNewRelicAlertConditionRead.
      rewrite Hids. unfold bind, index, ret. cbn [nth_error].
      rewrite Hcall. destruct e; try reflexivity. contradiction.
    + intros cond w1 e Hbuild Hcall.
      unfold resourceNewRelicAlertConditionUpdate, bind.
      rewrite Hbuild, Hids. unfold index, ret. cbn [nth_error].
      rewrite Hcall. reflexivity.
    + intros e Hcall. unfold resourceNewRelicAlertConditionDelete.
      rewrite Hids. unfold bind, index, ret. cbn [nth_error].
      rewrite Hcall. reflexivity.
Qed.

(** ** The duration rule *)

(** The validator installed for the duration looks at the flag as it is
    when the schema is built, and at nothing else. *)
Lemma duration_validator_of_flag (w : World) :
  exists res,
    resourceNewRelicAlertCondition w = Returns res w /\
    forall v, accepts (term_duration_ValidateFunc res) "duration" v
              = if isNRQL w
                then existsb (Z.eqb v) [1; 2; 3; 4; 5; 10; 15; 30; 60; 120]
                else existsb (Z.eqb v) [5; 10; 15; 30; 60; 120].
Proof.
  unfold resourceNewRelicAlertCondition, intInSliceDuration, bind,
    get_isNRQL, ret.
  destruct (isNRQL w); eexists; (split; [reflexivity | ]);
    intros v; unfold accepts, intInSlice; cbn [term_duration_ValidateFunc];
    destruct (existsb _ _); reflexivity.
Qed.

(** C6.  The schema built in a fresh process accepts a duration of 5 and
    rejects a duration of 1 on the Metric-shaped document, and rejects the
    duration of 1 on the NRQL-shaped document as well.  A schema built
    after an NRQL-shaped document has gone through
    [buildAlertConditionStruct] accepts the duration of 1 on both
    documents.  The rule follows the flag, not the document. *)
Theorem duration_rule_follows_flag :
  (exists res,
     resourceNewRelicAlertCondition initialWorld = Returns res initialWorld /\
     metric_shaped metric_doc /\
     term_durations_valid res metric_doc = true /\
     term_durations_valid res metric_doc_one_minute = false /\
     nrql_shaped nrql_doc_one_minute /\
     term_durations_valid res nrql_doc_one_minute = false) /\
  (exists c w' res,
     buildAlertConditionStruct nrql_doc initialWorld = Returns c w' /\
     resourceNewRelicAlertCondition w' = Returns res w' /\
     metric_shaped metric_doc_one_minute /\
     term_durations_valid res metric_doc_one_minute = true /\
     term_durations_valid res nrql_doc_one_minute = true).
Proof.
  split.
  - eexists. split; [reflexivity | ].
    repeat split; try reflexivity; discriminate.
  - do 3 eexists. split; [reflexivity | ]. split; [reflexivity | ].
    repeat split; try reflexivity; discriminate.
Qed.

(** ** Reading a condition and building it again *)

Lemma parseEntities_canonical (es : list string) :
  Forall canonical_entity es ->
  exists vs, parseEntities es = inr vs /\ map strconv.Itoa vs = es.
Proof.
  induction 1 as [| entity rest (v & Hv & ->) _ (vs & Hvs & Hmap)].
  - exists []. split; reflexivity.
  - exists (v :: vs). simpl. rewrite ParseInt_Itoa, Hvs, Hmap by assumption.
    split; reflexivity.
Qed.

Lemma map_term_round_trip (ts : list AlertConditionTerm.t) :
  map (fun t => AlertConditionTerm.mk (duration t) (operator t) (priority t)
                  (threshold t) (time_function t))
      (map (fun src => mkTerm (AlertConditionTerm.Duration src)
                         (AlertConditionTerm.Operator src)
                         (AlertConditionTerm.Priority src)
                         (AlertConditionTerm.Threshold src)
                         (AlertConditionTerm.TimeFunction src)) ts)
  = ts.
Proof.
  induction ts as [| [du op pr th tf] ts IH]; simpl; [reflexivity | ].
  rewrite IH. reflexivity.
Qed.

(** The fields that do come back.  Let [x] be a condition of either shape
    (Metric: type, metric and entities, no NRQL entry; NRQL: entries and
    none of the three) whose entities are decimal renderings of 32-bit
    integers and whose user-defined pair is whole or empty, and let the id
    of the document decode.  Then the read succeeds, the build of the
    document read returns, and the condition built has the name, type,
    metric, entities, runbook URL, scope, terms and user-defined pair of
    [x]. *)
Theorem build_after_read_round_trip (x : AlertCondition.t)
  (d : ResourceData) (w : World) (p c : Z) :
  parseIDs (Id d) 2 = inr [p; c] ->
  Forall canonical_entity (AlertCondition.Entities x) ->
  condition_nrql_shaped x \/ condition_metric_shaped x ->
  pair_whole_or_empty (AlertCondition.UserDefined x) ->
  exists d' y w',
    readAlertConditionStruct x d w = Returns (None, d') w /\
    buildAlertConditionStruct d' w = Returns y w' /\
    same_fields_by_design x y.
Proof.
  intros Hids Hcanon Hshape Hpair.
  destruct (parseEntities_canonical _ Hcanon) as (vs & Hvs & Hmap).
  set (d' := document_after_read x p vs d).
  exists d', (condition_of_document d'), (world_after_build d' None w).
  split; [apply (read_succeeds x d w p c vs); assumption | ].
  assert (Hok : shape_complaint d' = None).
  { destruct Hshape as [(Hn & Ht & He & Hm) | (Hn & Ht & He & Hm)].
    - apply shape_complaint_nrql; subst d'; cbn; try assumption.
      + destruct (AlertCondition.NRQL x); [contradiction | discriminate].
      + rewrite He in Hmap. destruct vs; [reflexivity | discriminate].
    - apply shape_complaint_metric; subst d'; cbn; try assumption.
      + rewrite Hn. reflexivity.
      + intros ->. apply He. symmetry. exact Hmap. }
  split; [apply build_returns; exact Hok | ].
  unfold same_fields_by_design. subst d'.
  cbn [condition_of_document document_after_read AlertCondition.Name
       AlertCondition.Type_ AlertCondition.Metric AlertCondition.Entities
       AlertCondition.RunbookURL AlertCondition.Scope AlertCondition.Terms
       AlertCondition.UserDefined name type_ metric entities runbook_url
       condition_scope term].
  repeat split; try assumption.
  - apply map_term_round_trip.
  - unfold both_user_defined, GetOk, is_zero.
    cbn [user_defined_metric user_defined_value_function
         document_after_read snd].
    unfold pair_whole_or_empty in Hpair.
    destruct (AlertCondition.UserDefined x) as [um uvf].
    cbn [AlertConditionUserDefined.Metric
         AlertConditionUserDefined.ValueFunction] in *.
    destruct Hpair as [[-> ->] | [Hum Huvf]]; [reflexivity | ].
    destruct um, uvf; try contradiction. reflexivity.
Qed.

(** On a condition of either shape, with entities in decimal and a document
    whose id decodes, the read succeeds and the build of the document read
    returns the condition of that document. *)
Lemma read_then_build_runs (x : AlertCondition.t) (d : ResourceData)
  (w : World) (p c : Z) :
  parseIDs (Id d) 2 = inr [p; c] ->
  Forall canonical_entity (AlertCondition.Entities x) ->
  condition_nrql_shaped x \/ condition_metric_shaped x ->
  exists vs,
    readAlertConditionStruct x d w
    = Returns (None, document_after_read x p vs d) w /\
    buildAlertConditionStruct (document_after_read x p vs d) w
    = Returns (condition_of_document (document_after_read x p vs d))
        (world_after_build (document_after_read x p vs d) None w).
Proof.
  intros Hids Hcanon Hshape.
  destruct (parseEntities_canonical _ Hcanon) as (vs & Hvs & Hmap).
  exists vs. split; [apply (read_succeeds x d w p c vs); assumption | ].
  apply build_returns.
  destruct Hshape as [(Hn & Ht & He & Hm) | (Hn & Ht & He & Hm)].
  - apply shape_complaint_nrql; cbn; try assumption.
    + destruct (AlertCondition.NRQL x); [contradiction | discriminate].
    + rewrite He in Hmap. destruct vs; [reflexivity | discriminate].
  - apply shape_complaint_metric; cbn; try assumption.
    + rewrite Hn. reflexivity.
    + intros ->. apply He. symmetry. exact Hmap.
Qed.

(** C2.  On a condition of either shape, with entities in decimal and a
    document whose id decodes, the read succeeds and the build of the
    document read returns; the condition built has no NRQL entry and no
    value function, whatever the condition read had.  So a condition with
    an NRQL entry or with a value function does not come back: the round
    trip loses both fields. *)
Theorem round_trip_drops_nrql_and_value_function (x : AlertCondition.t)
  (d : ResourceData) (w : World) (p c : Z) :
  parseIDs (Id d) 2 = inr [p; c] ->
  Forall canonical_entity (AlertCondition.Entities x) ->
  condition_nrql_shaped x \/ condition_metric_shaped x ->
  exists d' y w',
    readAlertConditionStruct x d w = Returns (None, d') w /\
    buildAlertConditionStruct d' w = Returns y w' /\
    AlertCondition.NRQL y = [] /\
    AlertCondition.ValueFunction y = "" /\
    (AlertCondition.NRQL x <> [] \/ AlertCondition.ValueFunction x <> "" ->
     ~ lossless_round_trip x d w).
Proof.
  intros Hids Hcanon Hshape.
  destruct (read_then_build_runs x d w p c Hids Hcanon Hshape)
    as (vs & Hread & Hbuild).
  do 3 eexists. split; [exact Hread | ]. split; [exact Hbuild | ].
  split; [reflexivity | ]. split; [reflexivity | ].
  intros Hlost (d2 & y2 & w2 & Hread2 & Hbuild2 & (_ & Hnrql & Hvf)).
  rewrite Hread in Hread2. injection Hread2 as <-.
  rewrite Hbuild in Hbuild2. injection Hbuild2 as <- _.
  cbn [condition_of_document AlertCondition.NRQL AlertCondition.ValueFunction]
    in Hnrql, Hvf.
  destruct Hlost as [Hlost | Hlost]; apply Hlost; symmetry; assumption.
Qed.

(** ** Further properties of [buildAlertConditionStruct] *)

(** The world in which a call ends, however it ends. *)
Definition world_of {A : Type} (r : Run A) : World :=
  match r with
  | Returns _ w => w
  | Exits _ w => w
  | Panics _ w => w
  end.

Lemma shape_complaint_none_iff (d : ResourceData) :
  shape_complaint d = None <-> nrql_shaped d \/ metric_shaped d.
Proof.
  unfold shape_complaint, nrql_shaped, metric_shaped, has_nrql, has_type,
    has_entities, has_metric, GetOk, is_zero.
  destruct (nrql d), (type_ d), (entities d), (metric d); cbn;
    split; intros H; try discriminate; try reflexivity;
    try (left; repeat split; congruence);
    try (right; repeat split; congruence);
    destruct H as [(H1 & H2 & H3 & H4) | (H1 & H2 & H3 & H4)];
    congruence.
Qed.

(** A call that returns was given a document of one of the two shapes.  A
    call that ends the process was given a document of neither shape, has
    printed exactly one line, and the exit status is 1. *)
Theorem build_outcome_shape (d : ResourceData) (w : World) :
  (forall c w',
     buildAlertConditionStruct d w = Returns c w' ->
     nrql_shaped d \/ metric_shaped d) /\
  (forall status w',
     buildAlertConditionStruct d w = Exits status w' ->
     status = 1 /\ ~ (nrql_shaped d \/ metric_shaped d) /\
     exists msg, stdout w' = (stdout w ++ [msg])%list).
Proof.
  rewrite build_run. pose proof (shape_complaint_none_iff d) as Hiff.
  destruct (shape_complaint d) as [msg | ]; split.
  - discriminate.
  - intros status w' H. injection H as <- <-.
    split; [reflexivity | ]. split; [ | exists msg; reflexivity].
    intros Hshape. apply Hiff in Hshape. discriminate.
  - intros c w' _. apply Hiff. reflexivity.
  - discriminate.
Qed.

(** However the call ends, the flag [isNRQL] is then set if the document
    has an nrql block or the flag was set before: the call raises the flag,
    also on the way to [os.Exit], and never lowers it. *)
Theorem build_raises_flag (d : ResourceData) (w : World) :
  isNRQL (world_of (buildAlertConditionStruct d w))
  = has_nrql d || isNRQL w.
Proof.
  rewrite build_run.
  destruct (shape_complaint d); cbn; destruct (has_nrql d); reflexivity.
Qed.

(** A returning call has printed nothing; the condition it returns has the
    type, the metric and the runbook URL of the document, one entity per
    entity of the document, in order, in decimal, and neither an id nor a
    value function. *)
Theorem build_remaining_fields (d : ResourceData) (w w' : World)
  (c : AlertCondition.t) :
  buildAlertConditionStruct d w = Returns c w' ->
  stdout w' = stdout w /\
  AlertCondition.Type_ c = type_ d /\
  AlertCondition.Metric c = metric d /\
  AlertCondition.Entities c = map strconv.Itoa (entities d) /\
  AlertCondition.RunbookURL c = runbook_url d /\
  AlertCondition.ID c = 0 /\
  AlertCondition.ValueFunction c = "".
Proof.
  intros H. apply build_returned_condition in H.
  destruct H as (_ & -> & ->). repeat split.
Qed.

(** ** Further properties of [readAlertConditionStruct] *)

(** [entity] is read by [strconv.ParseInt(entity, 10, 32)] as [v]. *)
Definition entity_value (entity : string) (v : Z) : Prop :=
  strconv.ParseInt entity 32 = inr v.

Definition copy_of_nrql (src : AlertConditionNRQL.t) (b : NrqlBlock) : Prop :=
  query b = AlertConditionNRQL.Query src /\
  since_value b = AlertConditionNRQL.SinceValue src.

Lemma ParseUint_loop_nonneg (maxVal : Z) (s : string) :
  forall n v, 0 <= n -> strconv.ParseUint_loop maxVal s n = inr v -> 0 <= v.
Proof.
  induction s as [| ch s IH]; intros n v Hn H; cbn [strconv.ParseUint_loop] in H.
  - injection H as <-. exact Hn.
  - destruct (negb (strconv.is_digit ch)); [discriminate | ].
    destruct (strconv.maxUint64 / 10 + 1 <=? n); [discriminate | ].
    destruct (_ || _); [discriminate | ].
    eapply IH; [ | exact H]. apply Z.mod_pos_bound. reflexivity.
Qed.

(** What [ParseInt] accepts with 32 bits asked for is a 32-bit integer. *)
Lemma ParseInt_fits (s : string) (v : Z) :
  strconv.ParseInt s 32 = inr v -> fits_int32 v.
Proof.
  unfold strconv.ParseInt, fits_int32. change (2 ^ (32 - 1)) with (2 ^ 31).
  destruct s as [| ch s]; [discriminate | ].
  set (body := if (Ascii.eqb ch "+" || Ascii.eqb ch "-")%bool then s
               else String ch s).
  destruct (strconv.ParseUint body 32) as [kind | un] eqn:Hun; [discriminate | ].
  assert (Hpos : 0 <= un).
  { unfold strconv.ParseUint in Hun. destruct body; [discriminate | ].
    eapply ParseUint_loop_nonneg; [ | exact Hun]. lia. }
  destruct (Ascii.eqb ch "-"); cbn [negb andb].
  - destruct (Z.ltb_spec (2 ^ 31) un) as [Hgt | Hle]; [discriminate | ].
    intros Heq. injection Heq as <-. lia.
  - destruct (Z.leb_spec (2 ^ 31) un) as [Hge | Hlt]; [discriminate | ].
    intros Heq. injection Heq as <-. lia.
Qed.

Lemma ParseInt_error (s : string) (e : error) :
  strconv.ParseInt s 32 = inl e ->
  exists kind, e = NumError "ParseInt" s kind.
Proof.
  unfold strconv.ParseInt.
  destruct s as [| ch s]; [intros H; injection H as <-; eauto | ].
  destruct (strconv.ParseUint _ 32) as [kind | un].
  - intros H; injection H as <-; eauto.
  - destruct (_ && _); [intros H; injection H as <-; eauto | ].
    destruct (_ && _); [intros H; injection H as <-; eauto | discriminate].
Qed.

Lemma parseEntities_values (es : list string) (vs : list Z) :
  parseEntities es = inr vs <-> Forall2 entity_value es vs.
Proof.
  revert vs. induction es as [| entity es IH]; intros vs; simpl.
  - split.
    + intros H. injection H as <-. constructor.
    + intros H. inversion H. reflexivity.
  - split.
    + destruct (strconv.ParseInt entity 32) as [e | v] eqn:Hv; [discriminate | ].
      destruct (parseEntities es) as [e | vs'] eqn:Hvs; [discriminate | ].
      intros H. injection H as <-. constructor; [exact Hv | ].
      apply IH. reflexivity.
    + intros H. inversion H as [| entity' v es' vs' Hv Hrest]; subst.
      unfold entity_value in Hv. rewrite Hv.
      apply IH in Hrest. rewrite Hrest. reflexivity.
Qed.

(** A read that reports no error went through both checks. *)
Lemma read_inversion (x : AlertCondition.t) (d d' : ResourceData)
  (w w' : World) :
  readAlertConditionStruct x d w = Returns (None, d') w' ->
  exists p c vs,
    parseIDs (Id d) 2 = inr [p; c] /\
    parseEntities (AlertCondition.Entities x) = inr vs /\
    d' = document_after_read x p vs d /\ w' = w.
Proof.
  intros H.
  destruct (parseIDs (Id d) 2) as [e | ids] eqn:Hids.
  - unfold readAlertConditionStruct in H. rewrite Hids in H. discriminate.
  - destruct (parseIDs_two _ _ Hids) as (p & c & ->).
    destruct (parseEntities (AlertCondition.Entities x)) as [e | vs] eqn:Hvs.
    + unfold readAlertConditionStruct in H. rewrite Hids in H.
      unfold bind, index, ret in H. cbn [nth_error] in H.
      rewrite Hvs in H. discriminate.
    + rewrite (read_succeeds x d w p c vs Hids Hvs) in H.
      injection H as <- <-. exists p, c, vs. auto.
Qed.

(** After a read that reports no error the document has the id it had; its
    policy id is the first integer of that id; its entities are the values
    [ParseInt] reads from the entities of the condition, one for one, and
    all are 32-bit integers; its nrql blocks are the NRQL entries of the
    condition, one for one and in order, each with the same query and since
    value. *)
Theorem read_postcondition (x : AlertCondition.t) (d d' : ResourceData)
  (w w' : World) :
  readAlertConditionStruct x d w = Returns (None, d') w' ->
  w' = w /\
  Id d' = Id d /\
  (exists c, parseIDs (Id d) 2 = inr [policy_id d'; c]) /\
  Forall2 entity_value (AlertCondition.Entities x) (entities d') /\
  Forall fits_int32 (entities d') /\
  Forall2 copy_of_nrql (AlertCondition.NRQL x) (nrql d').
Proof.
  intros H. apply read_inversion in H.
  destruct H as (p & c & vs & Hids & Hvs & -> & ->).
  cbn [document_after_read Id policy_id entities nrql].
  apply parseEntities_values in Hvs.
  repeat split; try assumption.
  - exists c. exact Hids.
  - clear Hids. induction Hvs as [| entity v es vs' Hv _ IH]; constructor.
    + eapply ParseInt_fits. exact Hv.
    + exact IH.
  - induction (AlertCondition.NRQL x) as [| src srcs IH]; simpl; constructor.
    + split; reflexivity.
    + exact IH.
Qed.

(** Reading the same condition a second time changes nothing. *)
Theorem read_idempotent (x : AlertCondition.t) (d d' : ResourceData)
  (w w' : World) :
  readAlertConditionStruct x d w = Returns (None, d') w' ->
  readAlertConditionStruct x d' w' = Returns (None, d') w'.
Proof.
  intros H. apply read_inversion in H.
  destruct H as (p & c & vs & Hids & Hvs & -> & ->).
  rewrite (read_succeeds x (document_after_read x p vs d) w p c vs);
    [reflexivity | exact Hids | exact Hvs].
Qed.

(** The read does not look at the policy id and the id of the condition:
    the policy id of the document comes from the id of the document. *)
Theorem read_ignores_condition_ids (x : AlertCondition.t) (d : ResourceData)
  (w : World) (policyID id : Z) :
  readAlertConditionStruct
    (AlertCondition.set_ID id (AlertCondition.set_PolicyID policyID x)) d w
  = readAlertConditionStruct x d w.
Proof. destruct x; reflexivity. Qed.

(** When the entities before [bad] are integers and [bad] is not, the error
    of the read is the error of [ParseInt] on [bad], which names [bad], and
    the document is not touched. *)
Theorem read_reports_first_bad_entity (x : AlertCondition.t)
  (d : ResourceData) (w : World) (p c : Z) (good rest : list string)
  (bad : string) (e : error) :
  parseIDs (Id d) 2 = inr [p; c] ->
  AlertCondition.Entities x = (good ++ bad :: rest)%list ->
  Forall (fun entity => exists v, entity_value entity v) good ->
  strconv.ParseInt bad 32 = inl e ->
  readAlertConditionStruct x d w = Returns (Some e, d) w /\
  exists kind, e = NumError "ParseInt" bad kind.
Proof.
  intros Hids Hentities Hgood Hbad.
  split; [ | eapply ParseInt_error; exact Hbad].
  unfold readAlertConditionStruct. rewrite Hids.
  unfold bind, index, ret. cbn [nth_error]. rewrite Hentities.
  assert (Hfail : parseEntities (good ++ bad :: rest) = inl e).
  { clear Hentities. induction Hgood as [| entity good' [v Hv] _ IH]; simpl.
    - rewrite Hbad. reflexivity.
    - unfold entity_value in Hv. rewrite Hv, IH. reflexivity. }
  rewrite Hfail. reflexivity.
Qed.

(** ** Building a document and reading the condition back *)

Lemma parseEntities_Itoa (vs : list Z) :
  Forall fits_int32 vs -> parseEntities (map strconv.Itoa vs) = inr vs.
Proof.
  induction 1 as [| v vs Hv _ IH]; simpl; [reflexivity | ].
  rewrite ParseInt_Itoa, IH by assumption. reflexivity.
Qed.

Lemma map_block_round_trip (ts : list TermBlock) :
  map (fun src => mkTerm (AlertConditionTerm.Duration src)
                    (AlertConditionTerm.Operator src)
                    (AlertConditionTerm.Priority src)
                    (AlertConditionTerm.Threshold src)
                    (AlertConditionTerm.TimeFunction src))
      (map (fun t => AlertConditionTerm.mk (duration t) (operator t)
                       (priority t) (threshold t) (time_function t)) ts)
  = ts.
Proof.
  induction ts as [| [du op pr th tf] ts IH]; simpl; [reflexivity | ].
  rewrite IH. reflexivity.
Qed.

(** Let [d] be a document of either shape whose entities are 32-bit
    integers and whose id decodes.  Reading the condition built from [d]
    back into [d] succeeds and keeps the id, name, type, entities, metric,
    runbook URL, condition scope and terms of [d]; the policy id becomes
    the first integer of the id; the nrql blocks and the value function
    are emptied; the two user-defined keys are kept when both are set and
    emptied when either is not. *)
Theorem read_after_build (d : ResourceData) (w : World) (p c : Z) :
  parseIDs (Id d) 2 = inr [p; c] ->
  nrql_shaped d \/ metric_shaped d ->
  Forall fits_int32 (entities d) ->
  exists cond w' d',
    buildAlertConditionStruct d w = Returns cond w' /\
    readAlertConditionStruct cond d w' = Returns (None, d') w' /\
    Id d' = Id d /\ policy_id d' = p /\ name d' = name d /\
    type_ d' = type_ d /\ entities d' = entities d /\
    metric d' = metric d /\ runbook_url d' = runbook_url d /\
    condition_scope d' = condition_scope d /\ term d' = term d /\
    nrql d' = [] /\ value_function d' = "" /\
    (user_defined_metric d <> "" /\ user_defined_value_function d <> "" ->
     user_defined_metric d' = user_defined_metric d /\
     user_defined_value_function d' = user_defined_value_function d) /\
    (user_defined_metric d = "" \/ user_defined_value_function d = "" ->
     user_defined_metric d' = "" /\ user_defined_value_function d' = "").
Proof.
  intros Hids Hshape Hfit.
  apply shape_complaint_none_iff in Hshape.
  exists (condition_of_document d), (world_after_build d None w),
    (document_after_read (condition_of_document d) p (entities d) d).
  split; [apply build_returns; exact Hshape | ].
  split.
  { apply (read_succeeds _ d _ p c); [exact Hids | ].
    apply parseEntities_Itoa. exact Hfit. }
  cbn [document_after_read condition_of_document Id policy_id name type_
       entities metric runbook_url condition_scope term nrql value_function
       user_defined_metric user_defined_value_function
       AlertCondition.Name AlertCondition.Type_ AlertCondition.Metric
       AlertCondition.RunbookURL AlertCondition.Scope AlertCondition.Terms
       AlertCondition.NRQL AlertCondition.ValueFunction
       AlertCondition.UserDefined map].
  repeat (split; [reflexivity | ]).
  split; [apply map_block_round_trip | ].
  repeat (split; [reflexivity | ]).
  unfold both_user_defined, GetOk, is_zero.
  destruct (user_defined_metric d), (user_defined_value_function d); cbn;
    split; intros H; try (split; reflexivity);
    solve [ destruct H as [H1 H2]; congruence
          | destruct H as [H | H]; discriminate ].
Qed.

(** ** Further properties of the callbacks *)

Lemma integer_part_Itoa (v : Z) : integer_part (strconv.Itoa v) = Some v.
Proof.
  destruct (Z.ltb_spec v 0) as [Hneg | Hpos];
    [ | apply integer_part_Itoa_nonneg; exact Hpos].
  unfold strconv.Itoa.
  assert (Hlt : (v <? 0) = true) by (apply Z.ltb_lt; exact Hneg).
  rewrite Hlt. cbn [integer_part Ascii.eqb Bool.eqb].
  pose proof (digits_value_Itoa_nonneg (- v) ltac:(lia)) as Hval.
  pose proof (formatBits_nonempty (Z.to_nat (Z.log2 (- v))) (- v) "") as Hne.
  fold (strconv.formatFuel (- v)) in Hne.
  destruct (strconv.formatBits (strconv.formatFuel (- v)) (- v) "")
    as [| ch body]; [contradiction | ].
  unfold numeral_value. rewrite Hval. cbn. f_equal. lia.
Qed.

(** The id that [Create] stores decodes to the ids it was made of. *)
Lemma stored_id_decodes (p c : Z) :
  separator_ok idSeparator = true ->
  parseIDs (serializeIDs [p; c]) 2 = inr [p; c].
Proof.
  intros Hsep.
  unfold parseIDs, serializeIDs. cbn [map]. rewrite concat_cons.
  cbn [String.concat]. change (String idSeparator "" ++ strconv.Itoa c)
    with (String idSeparator (strconv.Itoa c)).
  rewrite split_on_app
    by (eapply integer_part_free; [exact Hsep | apply integer_part_Itoa]).
  rewrite split_on_free
    by (eapply integer_part_free; [exact Hsep | apply integer_part_Itoa]).
  cbn [List.length Nat.eqb negb integer_parts].
  rewrite !integer_part_Itoa. reflexivity.
Qed.

Lemma read_returns (x : AlertCondition.t) (d : ResourceData) (w : World) :
  exists e d',
    readAlertConditionStruct x d w = Returns (e, d') w /\ Id d' = Id d.
Proof.
  destruct (parseIDs (Id d) 2) as [e | ids] eqn:Hids.
  - exists (Some e), d. unfold readAlertConditionStruct. rewrite Hids.
    split; reflexivity.
  - destruct (parseIDs_two _ _ Hids) as (p & c & ->).
    destruct (parseEntities (AlertCondition.Entities x)) as [e | vs] eqn:Hvs.
    + exists (Some e), d. unfold readAlertConditionStruct. rewrite Hids.
      unfold bind, index, ret. cbn [nth_error]. rewrite Hvs.
      split; reflexivity.
    + exists None, (document_after_read x p vs d).
      split; [apply (read_succeeds x d w p c vs); assumption | reflexivity].
Qed.

(** When the client creates the condition, [Create] stores as the id of the
    document the token made of the policy id and the id of the condition
    the client returned, and changes no key; the stored id decodes to these
    two integers, which is how the other callbacks find the condition. *)
Theorem create_stores_decodable_id (client : Client) (d : ResourceData)
  (r r' : Remote) (w w1 : World) (cond created : AlertCondition.t) :
  separator_ok idSeparator = true ->
  buildAlertConditionStruct d w = Returns cond w1 ->
  CreateAlertCondition client cond r = (inr created, r') ->
  exists d',
    resourceNewRelicAlertConditionCreate client d r w
    = Returns (None, d', r') w1 /\
    d' = SetId (serializeIDs [AlertCondition.PolicyID created;
                              AlertCondition.ID created]) d /\
    parseIDs (Id d') 2
    = inr [AlertCondition.PolicyID created; AlertCondition.ID created].
Proof.
  intros Hsep Hbuild Hcall. eexists. split; [ | split; [reflexivity | ]].
  - unfold resourceNewRelicAlertConditionCreate, bind.
    rewrite Hbuild, Hcall. reflexivity.
  - cbn [SetId Id]. apply stored_id_decodes. exact Hsep.
Qed.

(** When the id of the document does not decode, [Read], [Delete] and, once
    the build has returned, [Update] return the error of the decoder; the
    document and the remote service are as they were, no call of the client
    having been made. *)
Theorem undecodable_id_stops_callbacks (client : Client) (d : ResourceData)
  (r : Remote) (w : World) (e : error) :
  parseIDs (Id d) 2 = inl e ->
  resourceNewRelicAlertConditionRead client d r w
  = Returns (Some e, d, r) w /\
  resourceNewRelicAlertConditionDelete client d r w
  = Returns (Some e, d, r) w /\
  (forall cond w1,
     buildAlertConditionStruct d w = Returns cond w1 ->
     resourceNewRelicAlertConditionUpdate client d r w
     = Returns (Some e, d, r) w1).
Proof.
  intros Hids. repeat split.
  - unfold resourceNewRelicAlertConditionRead. rewrite Hids. reflexivity.
  - unfold resourceNewRelicAlertConditionDelete. rewrite Hids. reflexivity.
  - intros cond w1 Hbuild.
    unfold resourceNewRelicAlertConditionUpdate, bind.
    rewrite Hbuild, Hids. reflexivity.
Qed.

(** [Read] never ends the process.  When it returns, the flag and the
    standard output are as they were, and the document has the id it had,
    unless [Read] reports success on the document with its id cleared. *)
Theorem read_callback_outcome (client : Client) (d : ResourceData)
  (r : Remote) (w : World) :
  (forall e d' r' w',
     resourceNewRelicAlertConditionRead client d r w
     = Returns (e, d', r') w' ->
     w' = w /\ (Id d' = Id d \/ (e = None /\ d' = SetId "" d))) /\
  (forall status w',
     resourceNewRelicAlertConditionRead client d r w <> Exits status w').
Proof.
  assert (Hrun : exists e d' r',
             resourceNewRelicAlertConditionRead client d r w
             = Returns (e, d', r') w /\
             (Id d' = Id d \/ (e = None /\ d' = SetId "" d))).
  { unfold resourceNewRelicAlertConditionRead.
    destruct (parseIDs (Id d) 2) as [e | ids] eqn:Hids.
    - exists (Some e), d, r. split; [reflexivity | left; reflexivity].
    - destruct (parseIDs_two _ _ Hids) as (p & c & ->).
      unfold bind, index, ret. cbn [nth_error].
      destruct (GetAlertCondition client p c r) as [[err | x] r1].
      + destruct err;
          try (eexists; eexists; eexists;
               split; [reflexivity | left; reflexivity]).
        exists None, (SetId "" d), r1. split; [reflexivity | right; auto].
      + destruct (read_returns x d w) as (e & d' & Hread & Hid).
        rewrite Hread. exists e, d', r1.
        split; [reflexivity | left; exact Hid]. }
  destruct Hrun as (e0 & d0 & r0 & Hrun & Hinv). rewrite Hrun. split.
  - intros e d' r' w' H. injection H as <- <- <- <-. auto.
  - discriminate.
Qed.

(** [Delete] never ends the process.  When it returns, the flag and the
    standard output are as they were, and it reports either success with
    the id of the document cleared and nothing else changed, or an error
    with the document as it was. *)
Theorem delete_callback_outcome (client : Client) (d : ResourceData)
  (r : Remote) (w : World) :
  (forall e d' r' w',
     resourceNewRelicAlertConditionDelete client d r w
     = Returns (e, d', r') w' ->
     w' = w /\
     ((e = None /\ d' = SetId "" d) \/ (e <> None /\ d' = d))) /\
  (forall status w',
     resourceNewRelicAlertConditionDelete client d r w <> Exits status w').
Proof.
  assert (Hrun : exists e d' r',
             resourceNewRelicAlertConditionDelete client d r w
             = Returns (e, d', r') w /\
             ((e = None /\ d' = SetId "" d) \/ (e <> None /\ d' = d))).
  { unfold resourceNewRelicAlertConditionDelete.
    destruct (parseIDs (Id d) 2) as [e | ids] eqn:Hids.
    - exists (Some e), d, r. split; [reflexivity | right].
      split; [discriminate | reflexivity].
    - destruct (parseIDs_two _ _ Hids) as (p & c & ->).
      unfold bind, index, ret. cbn [nth_error].
      destruct (DeleteAlertCondition client p c r) as [[err | ] r1].
      + exists (Some err), d, r1. split; [reflexivity | right].
        split; [discriminate | reflexivity].
      + exists None, (SetId "" d), r1. split; [reflexivity | left; auto]. }
  destruct Hrun as (e0 & d0 & r0 & Hrun & Hinv). rewrite Hrun. split.
  - intros e d' r' w' H. injection H as <- <- <- <-. auto.
  - discriminate.
Qed.

(** When [Update] returns, the document was of one of the two shapes, nothing
    has been printed, and the document returned has the id it had: an
    update never moves a condition to another id.  When [Update] ends the
    process, the status is 1 and the document was of neither shape. *)
Theorem update_callback_outcome (client : Client) (d : ResourceData)
  (r : Remote) (w : World) :
  (forall e d' r' w',
     resourceNewRelicAlertConditionUpdate client d r w
     = Returns (e, d', r') w' ->
     Id d' = Id d /\ (nrql_shaped d \/ metric_shaped d) /\
     stdout w' = stdout w) /\
  (forall status w',
     resourceNewRelicAlertConditionUpdate client d r w = Exits status w' ->
     status = 1 /\ ~ (nrql_shaped d \/ metric_shaped d)).
Proof.
  unfold resourceNewRelicAlertConditionUpdate, bind. rewrite build_run.
  pose proof (shape_complaint_none_iff d) as Hiff.
  destruct (shape_complaint d) as [msg | ].
  - split; [discriminate | ].
    intros status w' H. injection H as <- <-. split; [reflexivity | ].
    intros Hshape. apply Hiff in Hshape. discriminate.
  - assert (Hrun : exists e d' r',
               match parseIDs (Id d) 2 with
               | inl err => ret (Some err, d, r)
               | inr ids =>
                   bind (index ids 0) (fun policyID =>
                   bind (index ids 1) (fun id =>
                     let condition :=
                       AlertCondition.set_PolicyID policyID
                         (condition_of_document d) in
                     let condition := AlertCondition.set_ID id condition in
                     let (updated, r0) :=
                       UpdateAlertCondition client condition r in
                     match updated with
                     | inl err => ret (Some err, d, r0)
                     | inr updatedCondition =>
                         bind (readAlertConditionStruct updatedCondition d)
                              (fun res => ret (fst res, snd res, r0))
                     end))
               end (world_after_build d None w)
               = Returns (e, d', r') (world_after_build d None w) /\
               Id d' = Id d).
    { destruct (parseIDs (Id d) 2) as [e | ids] eqn:Hids.
      - exists (Some e), d, r. split; reflexivity.
      - destruct (parseIDs_two _ _ Hids) as (p & c & ->).
        unfold bind, index, ret. cbn [nth_error].
        destruct (UpdateAlertCondition client _ r) as [[err | x] r1].
        + exists (Some err), d, r1. split; reflexivity.
        + destruct (read_returns x d (world_after_build d None w))
            as (e & d' & Hread & Hid).
          rewrite Hread. exists e, d', r1.
          split; [reflexivity | exact Hid]. }
    destruct Hrun as (e0 & d0 & r0 & Hrun & Hid).
    unfold bind in Hrun. rewrite Hrun. split; [ | discriminate].
    intros e d' r' w' H. injection H as <- <- <- <-.
    split; [exact Hid | ]. split; [apply Hiff; reflexivity | reflexivity].
Qed.

(** ** Further properties of the duration rule *)

(** A schema built with the flag set accepts every duration that a schema
    built with the flag clear accepts, and the durations 1 to 4 besides. *)
Theorem nrql_rule_extends_metric_rule (w1 w2 w1' w2' : World)
  (res1 res2 : Resource) :
  isNRQL w1 = false -> isNRQL w2 = true ->
  resourceNewRelicAlertCondition w1 = Returns res1 w1' ->
  resourceNewRelicAlertCondition w2 = Returns res2 w2' ->
  forall v,
    accepts (term_duration_ValidateFunc res2) "duration" v
    = accepts (term_duration_ValidateFunc res1) "duration" v
      || ((1 <=? v) && (v <=? 4)).
Proof.
  intros Hclear Hset H1 H2 v.
  destruct (duration_validator_of_flag w1) as (r1 & Hr1 & Hv1).
  destruct (duration_validator_of_flag w2) as (r2 & Hr2 & Hv2).
  rewrite Hr1 in H1. rewrite Hr2 in H2.
  injection H1 as <- _. injection H2 as <- _.
  rewrite Hv1, Hv2, Hclear, Hset. cbn [existsb].
  repeat match goal with
         | |- context [Z.eqb v ?k] =>
             destruct (Z.eqb_spec v k); [subst v; reflexivity | ]
         end.
  cbn [orb]. symmetry. apply andb_false_iff.
  destruct (Z.leb_spec 1 v); [right; apply Z.leb_gt; lia | left; reflexivity].
Qed.

End Resource.

(** ** Instances: the separator [":"] and a remote service without state *)

(** The Metric-shaped document of the test once it carries an id. *)
Definition stored_metric_doc : ResourceData := SetId "40:1234" metric_doc.

(** A Metric-shaped condition as the remote service may return it. *)
Definition metric_condition : AlertCondition.t :=
  {| AlertCondition.PolicyID := 40;
     AlertCondition.ID := 1234;
     AlertCondition.Type_ := "apm_app_metric";
     AlertCondition.Name := "tf-test-foo";
     AlertCondition.Enabled := true;
     AlertCondition.Entities := ["1234"];
     AlertCondition.Metric := "user_defined";
     AlertCondition.RunbookURL := "https://foo.example.com";
     AlertCondition.Scope := "application";
     AlertCondition.Terms :=
       [AlertConditionTerm.mk 5 "below" "critical" 0.75%float "all"];
     AlertCondition.NRQL := [];
     AlertCondition.UserDefined :=
       AlertConditionUserDefined.mk "Custom/Latency" "average";
     AlertCondition.ValueFunction := "" |}.

(** A client every call of which fails with the error [e]. *)
Definition failing_client (e : error) : Client unit :=
  {| CreateAlertCondition := fun _ r => (inl e, r);
     GetAlertCondition := fun _ _ r => (inl e, r);
     UpdateAlertCondition := fun _ r => (inl e, r);
     DeleteAlertCondition := fun _ _ r => (Some e, r) |}.

Lemma parseIDs_serializeIDs_witness :
  parseIDs ":" (serializeIDs ":" [40; 1234]) 2 = inr [40; 1234].
Proof.
  apply (parseIDs_serializeIDs ":" 40 1234); [reflexivity | lia | lia].
Defined.

(** Goes through the ways of cutting a literal token at a separator and
    closes each one on the part that is no integer. *)
Ltac refute_split s1 Heq Ha Hb :=
  repeat (destruct s1 as [| ? s1]; cbn [String.append] in Heq;
          [ try discriminate Heq;
            try (injection Heq as <-; (discriminate Ha || discriminate Hb))
          | try discriminate Heq; injection Heq as <- Heq; cbn in Ha ]);
  try discriminate.

Lemma parseIDs_two_integer_parts_witness :
  parseIDs ":" "12:34" 2 = inr [12; 34] /\
  parseIDs ":" "12" 2 = inl (MalformedIdentifierError "12") /\
  parseIDs ":" "1:2:3" 2 = inl (MalformedIdentifierError "1:2:3") /\
  parseIDs ":" "1:x" 2 = inl (MalformedIdentifierError "1:x").
Proof.
  split.
  { apply (proj1 (parseIDs_two_integer_parts ":" "12:34" eq_refl)).
    exists "12", "34". repeat split; reflexivity. }
  split; [ | split].
  - apply (proj2 (parseIDs_two_integer_parts ":" "12" eq_refl)).
    intros a b (s1 & s2 & Heq & Ha & Hb). refute_split s1 Heq Ha Hb.
  - apply (proj2 (parseIDs_two_integer_parts ":" "1:2:3" eq_refl)).
    intros a b (s1 & s2 & Heq & Ha & Hb). refute_split s1 Heq Ha Hb.
  - apply (proj2 (parseIDs_two_integer_parts ":" "1:x" eq_refl)).
    intros a b (s1 & s2 & Heq & Ha & Hb). refute_split s1 Heq Ha Hb.
Defined.

Lemma build_drops_nrql_block_witness :
  exists c w',
    buildAlertConditionStruct nrql_doc initialWorld = Returns c w' /\
    AlertCondition.NRQL c = [].
Proof.
  apply (build_drops_nrql_block nrql_doc initialWorld).
  repeat split; try reflexivity. discriminate.
Defined.

Lemma build_shape_conflict_exits_witness :
  exists msg,
    buildAlertConditionStruct nrql_doc_with_type initialWorld
    = Exits 1 (world_after_build nrql_doc_with_type (Some msg) initialWorld) /\
    (forall (client : Client unit) r,
       resourceNewRelicAlertConditionCreate ":" unit client
         nrql_doc_with_type r initialWorld
       = Exits 1 (world_after_build nrql_doc_with_type (Some msg)
                    initialWorld)) /\
    (forall (client : Client unit) r,
       resourceNewRelicAlertConditionUpdate ":" unit client
         nrql_doc_with_type r initialWorld
       = Exits 1 (world_after_build nrql_doc_with_type (Some msg)
                    initialWorld)).
Proof.
  destruct (build_shape_conflict_exits ":" unit nrql_doc_with_type initialWorld)
    as (msg & Hbuild & Hcreate & Hupdate).
  - left. split; [discriminate | ]. left. discriminate.
  - exists msg. auto.
Defined.

Lemma build_copies_common_fields_witness :
  exists c w',
    buildAlertConditionStruct metric_doc initialWorld = Returns c w' /\
    AlertCondition.Name c = "tf-test-foo" /\
    AlertCondition.PolicyID c = 40 /\
    AlertCondition.Scope c = "application" /\
    AlertCondition.Enabled c = true /\
    Forall2 copy_of_term (term metric_doc) (AlertCondition.Terms c).
Proof.
  eexists. eexists. split; [reflexivity | ].
  eapply (build_copies_common_fields metric_doc initialWorld).
  reflexivity.
Defined.

Lemma build_user_defined_pair_witness :
  exists c w',
    buildAlertConditionStruct
      (Set_user_defined_metric "Custom/Latency" metric_doc) initialWorld
    = Returns c w' /\
    AlertCondition.UserDefined c = AlertConditionUserDefined.zero.
Proof.
  destruct (build_user_defined_pair
              (Set_user_defined_metric "Custom/Latency" metric_doc)
              initialWorld)
    as (c & w' & Hbuild & _ & Hunset).
  - right. repeat split; try reflexivity; discriminate.
  - exists c, w'. split; [exact Hbuild | ]. apply Hunset. right. reflexivity.
Defined.

Lemma read_atomic_on_error_witness :
  (exists err,
     readAlertConditionStruct ":" metric_condition metric_doc initialWorld
     = Returns (Some err, metric_doc) initialWorld) /\
  (exists err,
     readAlertConditionStruct ":"
       (AlertCondition.set_Entities ["1234"; "12x4"] metric_condition)
       stored_metric_doc initialWorld
     = Returns (Some err, stored_metric_doc) initialWorld).
Proof.
  split.
  - apply (read_atomic_on_error ":"). left. eexists. reflexivity.
  - apply (read_atomic_on_error ":"). right.
    apply Exists_cons_tl, Exists_cons_hd. eexists. reflexivity.
Defined.

Lemma remote_errors_in_callbacks_witness :
  resourceNewRelicAlertConditionRead ":" unit (failing_client ErrNotFound)
    stored_metric_doc tt initialWorld
  = Returns (None, SetId "" stored_metric_doc, tt) initialWorld /\
  resourceNewRelicAlertConditionRead ":" unit
    (failing_client (RemoteError "503")) stored_metric_doc tt initialWorld
  = Returns (Some (RemoteError "503"), stored_metric_doc, tt) initialWorld /\
  resourceNewRelicAlertConditionDelete ":" unit (failing_client ErrNotFound)
    stored_metric_doc tt initialWorld
  = Returns (Some ErrNotFound, stored_metric_doc, tt) initialWorld.
Proof.
  pose proof (remote_errors_in_callbacks ":" unit (failing_client ErrNotFound)
                stored_metric_doc tt tt initialWorld) as [_ Hnotfound].
  pose proof (remote_errors_in_callbacks ":" unit
                (failing_client (RemoteError "503"))
                stored_metric_doc tt tt initialWorld) as [_ Hother].
  destruct (Hnotfound 40 1234 eq_refl) as (Hread & _ & _ & Hdelete).
  destruct (Hother 40 1234 eq_refl) as (_ & Hread' & _ & _).
  split; [apply Hread; reflexivity | ].
  split; [apply Hread'; [discriminate | reflexivity] | ].
  apply Hdelete; reflexivity.
Defined.

Lemma build_after_read_round_trip_witness :
  exists d' y w',
    readAlertConditionStruct ":" metric_condition stored_metric_doc
      initialWorld
    = Returns (None, d') initialWorld /\
    buildAlertConditionStruct d' initialWorld = Returns y w' /\
    same_fields_by_design metric_condition y.
Proof.
  apply (build_after_read_round_trip ":" metric_condition stored_metric_doc
           initialWorld 40 1234).
  - reflexivity.
  - constructor; [ | constructor]. exists 1234. split; [ | reflexivity].
    unfold fits_int32. lia.
  - right. repeat split; try reflexivity; discriminate.
  - right. split; discriminate.
Defined.

(** ** Where the specification and the code part *)

(** The condition [half_pair_condition] does not come back from a read
    followed by a build: the build leaves out a user-defined pair of which
    only the metric is set. *)
Lemma round_trip_loses_half_pair :
  ~ lossless_round_trip ":" half_pair_condition stored_metric_doc
      initialWorld.
Proof.
  intros (d' & y & w' & Hread & Hbuild & (Hfields & _)).
  vm_compute in Hread. injection Hread as <-.
  rewrite build_run in Hbuild. vm_compute in Hbuild.
  injection Hbuild as <- <-.
  destruct Hfields as (_ & _ & _ & _ & _ & _ & _ & Hpair).
  discriminate Hpair.
Qed.

(** C3.  On the NRQL document of the test, [type] line included, the call
    prints its complaint and ends the process with status 1; nothing is
    returned to the caller. *)
Lemma shape_conflict_ends_process :
  shape_conflict nrql_doc_with_type /\
  buildAlertConditionStruct nrql_doc_with_type initialWorld
  = Exits 1 {| isNRQL := true; stdout := ["No type entry for NRQL query"] |}.
Proof.
  split; [ | reflexivity].
  left. split; [discriminate | ]. left. discriminate.
Qed.

(** ** Instances for the further properties *)

(** A client every call of which succeeds; it gives a created condition the
    id 1234 and hands an updated condition back as it came. *)
Definition obliging_client : Client unit :=
  {| CreateAlertCondition :=
       fun cond r => (inr (AlertCondition.set_ID 1234 cond), r);
     GetAlertCondition := fun _ _ r => (inr metric_condition, r);
     UpdateAlertCondition := fun cond r => (inr cond, r);
     DeleteAlertCondition := fun _ _ r => (None, r) |}.

Lemma build_outcome_shape_witness :
  (nrql_shaped metric_doc \/ metric_shaped metric_doc) /\
  ~ (nrql_shaped nrql_doc_with_type \/ metric_shaped nrql_doc_with_type).
Proof.
  split.
  - apply (proj1 (build_outcome_shape metric_doc initialWorld)
             (condition_of_document metric_doc) initialWorld).
    reflexivity.
  - apply (proj2 (build_outcome_shape nrql_doc_with_type initialWorld) 1
             {| isNRQL := true;
                stdout := ["No type entry for NRQL query"] |}).
    reflexivity.
Defined.

Lemma build_remaining_fields_witness :
  exists c w',
    buildAlertConditionStruct metric_doc initialWorld = Returns c w' /\
    stdout w' = [] /\
    AlertCondition.Type_ c = "apm_app_metric" /\
    AlertCondition.Metric c = "apdex" /\
    AlertCondition.Entities c = ["1234"] /\
    AlertCondition.RunbookURL c = "https://foo.example.com" /\
    AlertCondition.ID c = 0 /\
    AlertCondition.ValueFunction c = "".
Proof.
  eexists. eexists. split; [reflexivity | ].
  eapply (build_remaining_fields metric_doc initialWorld). reflexivity.
Defined.

Lemma read_postcondition_witness :
  exists d',
    readAlertConditionStruct ":" metric_condition stored_metric_doc
      initialWorld
    = Returns (None, d') initialWorld /\
    Id d' = "40:1234" /\
    (exists c, parseIDs ":" "40:1234" 2 = inr [policy_id d'; c]) /\
    Forall fits_int32 (entities d').
Proof.
  eexists. split; [reflexivity | ].
  destruct (read_postcondition ":" metric_condition stored_metric_doc _
              initialWorld initialWorld eq_refl)
    as (_ & Hid & Hpolicy & _ & Hfit & _).
  auto.
Defined.

Lemma read_idempotent_witness :
  exists d',
    readAlertConditionStruct ":" metric_condition stored_metric_doc
      initialWorld
    = Returns (None, d') initialWorld /\
    readAlertConditionStruct ":" metric_condition d' initialWorld
    = Returns (None, d') initialWorld.
Proof.
  eexists. split; [reflexivity | ].
  apply (read_idempotent ":" metric_condition stored_metric_doc _
           initialWorld initialWorld).
  reflexivity.
Defined.

Lemma read_reports_first_bad_entity_witness :
  readAlertConditionStruct ":"
    (AlertCondition.set_Entities ["1234"; "12x4"; "y"] metric_condition)
    stored_metric_doc initialWorld
  = Returns (Some (NumError "ParseInt" "12x4" ErrSyntax), stored_metric_doc)
      initialWorld.
Proof.
  apply (read_reports_first_bad_entity ":"
           (AlertCondition.set_Entities ["1234"; "12x4"; "y"]
              metric_condition)
           stored_metric_doc initialWorld 40 1234 ["1234"] ["y"] "12x4").
  - reflexivity.
  - reflexivity.
  - constructor; [ | constructor]. exists 1234. reflexivity.
  - reflexivity.
Defined.

Lemma read_after_build_witness :
  exists cond w' d',
    buildAlertConditionStruct stored_metric_doc initialWorld
    = Returns cond w' /\
    readAlertConditionStruct ":" cond stored_metric_doc w'
    = Returns (None, d') w' /\
    entities d' = [1234] /\ term d' = term stored_metric_doc /\
    value_function d' = "".
Proof.
  destruct (read_after_build ":" stored_metric_doc initialWorld 40 1234)
    as (cond & w' & d' & Hbuild & Hread & _ & _ & _ & _ & Hentities & _ & _
        & _ & Hterm & _ & Hvf & _).
  - reflexivity.
  - right. repeat split; try reflexivity; discriminate.
  - constructor; [ | constructor]. unfold fits_int32. lia.
  - exists cond, w', d'. auto.
Defined.

Lemma create_stores_decodable_id_witness :
  exists d',
    resourceNewRelicAlertConditionCreate ":" unit obliging_client metric_doc
      tt initialWorld
    = Returns (None, d', tt) initialWorld /\
    d' = SetId "40:1234" metric_doc /\
    parseIDs ":" (Id d') 2 = inr [40; 1234].
Proof.
  destruct (create_stores_decodable_id ":" unit obliging_client metric_doc
              tt tt initialWorld initialWorld
              (condition_of_document metric_doc)
              (AlertCondition.set_ID 1234 (condition_of_document metric_doc))
              eq_refl eq_refl eq_refl)
    as (d' & Hcreate & Hd' & Hids).
  exists d'. auto.
Defined.

Lemma undecodable_id_stops_callbacks_witness :
  resourceNewRelicAlertConditionRead ":" unit obliging_client metric_doc tt
    initialWorld
  = Returns (Some (MalformedIdentifierError ""), metric_doc, tt) initialWorld
  /\
  resourceNewRelicAlertConditionDelete ":" unit obliging_client metric_doc tt
    initialWorld
  = Returns (Some (MalformedIdentifierError ""), metric_doc, tt) initialWorld.
Proof.
  destruct (undecodable_id_stops_callbacks ":" unit obliging_client metric_doc
              tt initialWorld (MalformedIdentifierError "") eq_refl)
    as (Hread & Hdelete & _).
  auto.
Defined.

Lemma read_callback_outcome_witness :
  resourceNewRelicAlertConditionRead ":" unit (failing_client ErrNotFound)
    stored_metric_doc tt initialWorld
  = Returns (None, SetId "" stored_metric_doc, tt) initialWorld /\
  initialWorld = initialWorld /\
  (Id (SetId "" stored_metric_doc) = Id stored_metric_doc \/
   (@None error = None /\
    SetId "" stored_metric_doc = SetId "" stored_metric_doc)).
Proof.
  split; [reflexivity | ].
  apply (proj1 (read_callback_outcome ":" unit (failing_client ErrNotFound)
                  stored_metric_doc tt initialWorld)
           None (SetId "" stored_metric_doc) tt initialWorld).
  reflexivity.
Defined.

Lemma delete_callback_outcome_witness :
  resourceNewRelicAlertConditionDelete ":" unit obliging_client
    stored_metric_doc tt initialWorld
  = Returns (None, SetId "" stored_metric_doc, tt) initialWorld /\
  initialWorld = initialWorld /\
  ((@None error = None /\
    SetId "" stored_metric_doc = SetId "" stored_metric_doc) \/
   (@None error <> None /\ SetId "" stored_metric_doc = stored_metric_doc)).
Proof.
  split; [reflexivity | ].
  apply (proj1 (delete_callback_outcome ":" unit obliging_client
                  stored_metric_doc tt initialWorld)
           None (SetId "" stored_metric_doc) tt initialWorld).
  reflexivity.
Defined.

Lemma update_callback_outcome_witness :
  exists e d',
    resourceNewRelicAlertConditionUpdate ":" unit obliging_client
      stored_metric_doc tt initialWorld
    = Returns (e, d', tt) initialWorld /\
    Id d' = "40:1234" /\
    (nrql_shaped stored_metric_doc \/ metric_shaped stored_metric_doc).
Proof.
  eexists. eexists. split; [reflexivity | ].
  destruct (proj1 (update_callback_outcome ":" unit obliging_client
                     stored_metric_doc tt initialWorld)
              _ _ tt initialWorld eq_refl)
    as (Hid & Hshape & _).
  split; [exact Hid | exact Hshape].
Defined.

(** An NRQL-shaped condition as the remote service may return it, and a
    Metric-shaped one that carries a value function. *)
Definition nrql_condition : AlertCondition.t :=
  {| AlertCondition.PolicyID := 40;
     AlertCondition.ID := 1234;
     AlertCondition.Type_ := "";
     AlertCondition.Name := "tf-test-nrql-foo";
     AlertCondition.Enabled := true;
     AlertCondition.Entities := [];
     AlertCondition.Metric := "";
     AlertCondition.RunbookURL := "https://foo.example.com";
     AlertCondition.Scope := "";
     AlertCondition.Terms :=
       [AlertConditionTerm.mk 5 "below" "critical" 0.75%float "all"];
     AlertCondition.NRQL :=
       [AlertConditionNRQL.mk (query nrql_block) (since_value nrql_block)];
     AlertCondition.UserDefined := AlertConditionUserDefined.zero;
     AlertCondition.ValueFunction := "single_value" |}.

Definition metric_condition_with_sum : AlertCondition.t :=
  {| AlertCondition.PolicyID := 40;
     AlertCondition.ID := 1234;
     AlertCondition.Type_ := "apm_app_metric";
     AlertCondition.Name := "tf-test-foo";
     AlertCondition.Enabled := true;
     AlertCondition.Entities := ["1234"];
     AlertCondition.Metric := "apdex";
     AlertCondition.RunbookURL := "https://foo.example.com";
     AlertCondition.Scope := "application";
     AlertCondition.Terms :=
       [AlertConditionTerm.mk 5 "below" "critical" 0.75%float "all"];
     AlertCondition.NRQL := [];
     AlertCondition.UserDefined := AlertConditionUserDefined.zero;
     AlertCondition.ValueFunction := "sum" |}.

Lemma round_trip_drops_nrql_and_value_function_witness :
  ~ lossless_round_trip ":" nrql_condition stored_metric_doc initialWorld /\
  ~ lossless_round_trip ":" metric_condition_with_sum stored_metric_doc
      initialWorld.
Proof.
  split.
  - destruct (round_trip_drops_nrql_and_value_function ":" nrql_condition
                stored_metric_doc initialWorld 40 1234)
      as (d' & y & w' & _ & _ & _ & _ & Hlost).
    + reflexivity.
    + constructor.
    + left. repeat split; try reflexivity. discriminate.
    + apply Hlost. left. discriminate.
  - destruct (round_trip_drops_nrql_and_value_function ":"
                metric_condition_with_sum stored_metric_doc initialWorld
                40 1234)
      as (d' & y & w' & _ & _ & _ & _ & Hlost).
    + reflexivity.
    + constructor; [ | constructor]. exists 1234. split; [ | reflexivity].
      unfold fits_int32. lia.
    + right. repeat split; try reflexivity; discriminate.
    + apply Hlost. right. discriminate.
Defined.

Lemma nrql_rule_extends_metric_rule_witness :
  accepts (intInSlice [1; 2; 3; 4; 5; 10; 15; 30; 60; 120]) "duration" 3
  = accepts (intInSlice [5; 10; 15; 30; 60; 120]) "duration" 3
    || ((1 <=? 3) && (3 <=? 4)).
Proof.
  exact (nrql_rule_extends_metric_rule initialWorld
           {| isNRQL := true; stdout := [] |} initialWorld
           {| isNRQL := true; stdout := [] |}
           (mkResource (intInSlice [5; 10; 15; 30; 60; 120])
                       (intInSlice [1; 2; 3; 4; 5]))
           (mkResource (intInSlice [1; 2; 3; 4; 5; 10; 15; 30; 60; 120])
                       (intInSlice [1; 2; 3; 4; 5]))
           eq_refl eq_refl eq_refl eq_refl 3).
Defined.
